(** * Enterprise AI News Aggregator: scoring, selection and digest assembly

    A shallow embedding of [function_app.py].  The module-level
    configuration globals ([SETTINGS], [RELEVANCE_KEYWORDS], [CATEGORIES],
    [DAILY_SOURCES], [WEEKLY_SOURCES]) are explicit arguments; what the
    program reaches outside itself (HTTP and the feed parser, the clock,
    the process environment, [strftime]) is gathered in a [Runtime] record.

    Conventions of the model.
    - Python [str] is [string], the UTF-8 bytes of the text: [len] and
      slicing count characters, [int()] reads characters, substring search
      and tag removal work on the bytes (a character never matches inside
      another one).
    - The first part works in exact arithmetic on ASCII text: JSON numbers
      and scores are rationals [Q] (equality of scores is [Qeq]) and case
      conversion folds the letters A-Z/a-z.  The second part, "in Python's
      own arithmetic", takes [+], [* 0.5], the comparisons, [str.lower] and
      [int] as the interpreter provides them; the first part is its
      instance [exact_python], and [cpython] is the instance with binary64
      floats.
    - Counts read from the settings are natural numbers; a [datetime] is a
      number of seconds on the naive time line, one clock reading per run.
    - Insertion-ordered dictionaries that the code iterates over are
      association lists; dictionaries that are only looked up are [gmap]s. *)

From Stdlib Require Import Ascii QArith Qabs DecimalString Sorted Lia Floats.
From stdpp Require Import gmap strings list.

(** ** Python string primitives *)

Module PyStr.

Definition nl : string := String "010"%char EmptyString.
Definition dq : string := String "034"%char EmptyString.

Definition is_upper (c : ascii) : bool :=
  let n := nat_of_ascii c in (65 <=? n)%nat && (n <=? 90)%nat.

Definition is_lower (c : ascii) : bool :=
  let n := nat_of_ascii c in (97 <=? n)%nat && (n <=? 122)%nat.

Definition lower_char (c : ascii) : ascii :=
  if is_upper c then ascii_of_nat (nat_of_ascii c + 32) else c.

Definition upper_char (c : ascii) : ascii :=
  if is_lower c then ascii_of_nat (nat_of_ascii c - 32) else c.

Fixpoint map_chars (f : ascii -> ascii) (s : string) : string :=
  match s with
  | EmptyString => EmptyString
  | String c r => String (f c) (map_chars f r)
  end.

(** [s.lower()] and [s.upper()] on ASCII text: the letters are folded, every
    other byte is kept. *)
Definition lower : string -> string := map_chars lower_char.
Definition upper : string -> string := map_chars upper_char.

(** [s.startswith(p)] *)
Fixpoint startswith (p s : string) : bool :=
  match p, s with
  | EmptyString, _ => true
  | String _ _, EmptyString => false
  | String a p', String b s' => if ascii_dec a b then startswith p' s' else false
  end.

(** [p in s]: substring test *)
Fixpoint contains (p s : string) : bool :=
  startswith p s ||
  match s with
  | EmptyString => false
  | String _ r => contains p r
  end.

(** A byte that continues a UTF-8 sequence; every other byte starts a
    character. *)
Definition is_continuation (c : ascii) : bool :=
  let n := nat_of_ascii c in (128 <=? n)%nat && (n <=? 191)%nat.

(** [len(s)]: the number of characters. *)
Fixpoint len (s : string) : nat :=
  match s with
  | EmptyString => O
  | String c r => if is_continuation c then len r else S (len r)
  end.

(** [s[:n]] for a non-negative [n]: the first [n] characters, each with the
    bytes that continue it. *)
Fixpoint slice_to (n : nat) (s : string) : string :=
  match s with
  | EmptyString => EmptyString
  | String c r =>
      if is_continuation c then String c (slice_to n r)
      else
        match n with
        | O => EmptyString
        | S n' => String c (slice_to n' r)
        end
  end.

(** [sep.join(parts)] *)
Fixpoint join (sep : string) (parts : list string) : string :=
  match parts with
  | [] => EmptyString
  | [p] => p
  | p :: rest => p +:+ sep +:+ join sep rest
  end.

(** [c * n] *)
Fixpoint repeat (c : string) (n : nat) : string :=
  match n with
  | O => EmptyString
  | S n' => c +:+ repeat c n'
  end.

(** Every line followed by a newline, as in a triple-quoted template. *)
Definition unlines (ls : list string) : string :=
  fold_right (fun l acc => l +:+ nl +:+ acc) EmptyString ls.

(** [str(n)] for a length *)
Definition of_nat (n : nat) : string := NilZero.string_of_uint (Nat.to_uint n).

(** [re.sub(r'<[^>]+>', '', s)], as a scan with one pending candidate: [pending]
    holds the text read since an unclosed [<]; it is dropped when a [>]
    closes a non-empty tag and emitted unchanged when none does. *)
Fixpoint strip_tags_from (s : string) (pending : option string) : string :=
  match s with
  | EmptyString => default EmptyString pending
  | String c r =>
      match pending with
      | None =>
          if ascii_dec c "<" then strip_tags_from r (Some "<")
          else String c (strip_tags_from r None)
      | Some buf =>
          if ascii_dec c ">" then
            if String.eqb buf "<" then "<>" +:+ strip_tags_from r None
            else strip_tags_from r None
          else strip_tags_from r (Some (buf +:+ String c EmptyString))
      end
  end.

Definition strip_tags (s : string) : string := strip_tags_from s None.

End PyStr.

(** ** Python numeric built-ins *)

Inductive exn := ConnectionError | HTTPError | AttributeError | ValueError.

Inductive result (A : Type) :=
| Ok (a : A)
| Raise (e : exn).
Arguments Ok {A} a.
Arguments Raise {A} e.

(** What [int()] is applied to: a string from the environment or a number
    from the settings. *)
Inductive pyval :=
| VStr (s : string)
| VNum (q : Q).

Module PyNum.

(** The value [int()] reads a string from is the sequence of its characters.
    [code_points] decodes UTF-8; [None] marks bytes that are no well-formed
    sequence, which [os.environ] hands over as lone surrogates. *)
Definition continuation (c : ascii) : option N :=
  let b := N_of_ascii c in
  if (128 <=? b)%N && (b <=? 191)%N then Some (b - 128)%N else None.

Fixpoint code_points (s : string) : option (list N) :=
  match s with
  | EmptyString => Some []
  | String c r =>
      let b := N_of_ascii c in
      if (b <? 128)%N then cons b <$> code_points r
      else
        match r with
        | EmptyString => None
        | String c1 r1 =>
            match continuation c1 with
            | None => None
            | Some x1 =>
                if (194 <=? b)%N && (b <=? 223)%N
                then cons ((b - 192) * 64 + x1)%N <$> code_points r1
                else
                  match r1 with
                  | EmptyString => None
                  | String c2 r2 =>
                      match continuation c2 with
                      | None => None
                      | Some x2 =>
                          if (224 <=? b)%N && (b <=? 239)%N
                          then
                            let cp := ((b - 224) * 4096 + x1 * 64 + x2)%N in
                            if (2048 <=? cp)%N
                               && negb ((55296 <=? cp)%N && (cp <=? 57343)%N)
                            then cons cp <$> code_points r2
                            else None
                          else
                            match r2 with
                            | EmptyString => None
                            | String c3 r3 =>
                                match continuation c3 with
                                | None => None
                                | Some x3 =>
                                    let cp := ((b - 240) * 262144 + x1 * 4096
                                               + x2 * 64 + x3)%N in
                                    if (240 <=? b)%N && (65536 <=? cp)%N
                                       && (cp <=? 1114111)%N
                                    then cons cp <$> code_points r3
                                    else None
                                end
                            end
                      end
                  end
            end
        end
  end.

(** The characters from 127 up that [str.isspace] accepts. *)
Definition unicode_spaces : list N :=
  [133; 160; 5760; 8192; 8193; 8194; 8195; 8196; 8197; 8198; 8199; 8200;
   8201; 8202; 8232; 8233; 8239; 8287; 12288]%N.

(** The digit zero of every script with decimal digits (Unicode 14.0, the
    table of CPython 3.11); the nine characters after it are its 1 to 9. *)
Definition unicode_zero_digits : list N :=
  [1632; 1776; 1984; 2406; 2534; 2662; 2790; 2918; 3046; 3174; 3302; 3430;
   3558; 3664; 3792; 3872; 4160; 4240; 6112; 6160; 6470; 6608; 6784; 6800;
   6992; 7088; 7232; 7248; 42528; 43216; 43264; 43472; 43504; 43600; 44016;
   65296; 66720; 68912; 69734; 69872; 69942; 70096; 70384; 70736; 70864;
   71248; 71360; 71472; 71904; 72016; 72784; 73040; 73120; 92768; 92864;
   93008; 120782; 120792; 120802; 120812; 120822; 123200; 123632; 125264;
   130032]%N.

(** How [int()] reads one character: below 127 as it is, a space as a
    blank, a decimal digit as its ASCII digit, anything else as [?]. *)
Definition to_ascii (cp : N) : N :=
  if (cp <? 127)%N then cp
  else if existsb (N.eqb cp) unicode_spaces then 32%N
  else
    match List.find (fun z => (z <=? cp)%N && (cp <? z + 10)%N) unicode_zero_digits with
    | Some z => (48 + (cp - z))%N
    | None => 63%N
    end.

(** The blanks [int()] skips at both ends: tab to carriage return, and the
    space. *)
Definition is_space (c : N) : bool :=
  ((9 <=? c)%N && (c <=? 13)%N) || (c =? 32)%N.

Fixpoint lstrip (s : list N) : list N :=
  match s with
  | [] => []
  | c :: r => if is_space c then lstrip r else s
  end.

Definition strip (s : list N) : list N := rev (lstrip (rev (lstrip s))).

Definition digit_value (c : N) : option Z :=
  if (48 <=? c)%N && (c <=? 57)%N then Some (Z.of_N (c - 48)) else None.

(** Decimal digits, single underscores allowed between two digits. *)
Fixpoint parse_digits (s : list N) (acc : Z) (after_digit : bool) : option Z :=
  match s with
  | [] => if after_digit then Some acc else None
  | c :: r =>
      match digit_value c with
      | Some d => parse_digits r (10 * acc + d)%Z true
      | None =>
          if (c =? 95)%N then
            if after_digit then parse_digits r acc false else None
          else None
      end
  end.

(** [sys.int_info.default_max_str_digits]: a longer run of digits is
    refused. *)
Definition max_str_digits : nat := 4300.

Definition parse_number (s : list N) : option Z :=
  if (max_str_digits <? length (List.filter (fun c => bool_decide (is_Some (digit_value c))) s))%nat
  then None
  else parse_digits s 0 false.

(** [int(s)] for a string, [None] standing for [ValueError]. *)
Definition int_of_str (s : string) : option Z :=
  match code_points s with
  | None => None
  | Some cps =>
      match strip (map to_ascii cps) with
      | c :: r =>
          if (c =? 43)%N then parse_number r
          else if (c =? 45)%N then Z.opp <$> parse_number r
          else parse_number (c :: r)
      | [] => None
      end
  end.

(** [int(x)] for a number: truncation towards zero. *)
Definition int_of_number (q : Q) : Z := Z.quot (Qnum q) (Zpos (Qden q)).

Definition int (v : pyval) : result Z :=
  match v with
  | VStr s => match int_of_str s with Some z => Ok z | None => Raise ValueError end
  | VNum q => Ok (int_of_number q)
  end.

(** Nearest integer, ties to even: the rounding of the [.0f] format. *)
Definition round_half_even (q : Q) : Z :=
  let d := Zpos (Qden q) in
  let fl := (Qnum q / d)%Z in
  match (2 * (Qnum q mod d) ?= d)%Z with
  | Lt => fl
  | Gt => (fl + 1)%Z
  | Eq => if Z.even fl then fl else (fl + 1)%Z
  end.

(** [f"{q:.0f}"] *)
Definition format_0f (q : Q) : string :=
  let digits := NilZero.string_of_uint (N.to_uint (Z.abs_N (round_half_even q))) in
  if (Qnum q <? 0)%Z then "-" +:+ digits else digits.

End PyNum.

(** [list.sort(key=..., reverse=True)]: a stable sort, greatest key first. *)
Section Sort.
Context {A : Type} (key : A -> Q).

Fixpoint insert_desc (x : A) (l : list A) : list A :=
  match l with
  | [] => [x]
  | y :: r => if Qle_bool (key y) (key x) then x :: y :: r else y :: insert_desc x r
  end.

Definition sort_desc (l : list A) : list A := fold_right insert_desc [] l.

(** The order the sort establishes: no later element has a greater key. *)
Definition descending (a b : A) : Prop := (key b <= key a)%Q.

End Sort.

(** [d[k] = v] on an insertion-ordered dictionary. *)
Fixpoint dict_set {V} (d : list (string * V)) (k : string) (v : V) : list (string * V) :=
  match d with
  | [] => [(k, v)]
  | (k', v') :: r =>
      if String.eqb k' k then (k', v) :: r else (k', v') :: dict_set r k v
  end.

(** ** Data model *)

Record Article := mkArticle {
  title : string;
  link : string;
  source : string;
  published : option Z;
  summary : string;
  relevance_score : Q;
  matched_keywords : list string;
  category : string
}.

(** The dataclass constructor with its field defaults. *)
Definition new_article (t l s : string) (p : option Z) (sm : string) : Article :=
  mkArticle t l s p sm 0 [] "General".

(** [SETTINGS]; an absent key is [None] and takes the default of the
    [SETTINGS.get] that reads it. *)
Record Settings := mkSettings {
  lookback_hours : option Z;
  max_articles_per_source : option nat;
  max_articles_total : option nat;
  min_relevance_score : option Q
}.

(** A feed entry as the parser hands it over; [None] is a missing attribute
    (or, for the two dates, one that is falsy). *)
Record Entry := mkEntry {
  entry_title : option string;
  entry_link : option string;
  published_parsed : option Z;
  updated_parsed : option Z;
  entry_summary : option string;
  entry_description : option string
}.

(** Outcome of [requests.get] followed by [raise_for_status] and
    [feedparser.parse]. *)
Inductive Response :=
| Unreachable
| BadStatus
| Feed (entries : list Entry).

Record Runtime := mkRuntime {
  requests_get : string -> Response;
  now : Z;
  environ : gmap string string;
  strftime : Z -> string -> string
}.

(** ** Categorizer *)

Section Categorizer.
Variable CATEGORIES : list (string * list string).

(** [any(ck in kw.lower() for ck in category_keywords)] *)
Definition fragment_hit (category_keywords : list string) (kw : string) : bool :=
  existsb (fun ck => PyStr.contains ck (PyStr.lower kw)) category_keywords.

(** [sum(1 for kw in keywords if any(...))] *)
Definition category_score (category_keywords keywords : list string) : nat :=
  length (List.filter (fragment_hit category_keywords) keywords).

(** [categorize], lines 126-139.  The loop filling [category_scores]: *)
Definition category_scores (keywords : list string) : list (string * nat) :=
  fold_left
    (fun scores entry => dict_set scores (fst entry) (category_score (snd entry) keywords))
    CATEGORIES [].

(** [max(d, key=d.get)]: the first key whose value is maximal. *)
Fixpoint max_by_value (best : string * nat) (rest : list (string * nat)) : string * nat :=
  match rest with
  | [] => best
  | x :: r => if (snd best <? snd x)%nat then max_by_value x r else max_by_value best r
  end.

Definition categorize (keywords : list string) : string :=
  match category_scores keywords with
  | [] => "General"
  | first :: rest =>
      let best := max_by_value first rest in
      if (0 <? snd best)%nat then fst best else "General"
  end.

End Categorizer.

(** ** Scorer *)

Section Scorer.
Variable RELEVANCE_KEYWORDS : list (string * Q).
Variable CATEGORIES : list (string * list string).

(** [f"{article.title} {article.summary}".lower()] *)
Definition haystack (a : Article) : string :=
  PyStr.lower (title a +:+ " " +:+ summary a).

(** Body of the first loop: full-text scan. *)
Definition scan_text (text : string) (st : Q * list string) (kw : string * Q)
  : Q * list string :=
  if PyStr.contains (PyStr.lower (fst kw)) text
  then ((fst st + snd kw)%Q, snd st ++ [fst kw])
  else st.

(** Body of the second loop: title bonus. *)
Definition scan_title (title_lower : string) (score : Q) (kw : string * Q) : Q :=
  if PyStr.contains (PyStr.lower (fst kw)) title_lower
  then (score + snd kw * (1 # 2))%Q
  else score.

(** [score_relevance], lines 142-163; the article is updated in place and
    returned. *)
Definition score_relevance (a : Article) : Article :=
  let text := haystack a in
  let st := fold_left (scan_text text) RELEVANCE_KEYWORDS (0%Q, []) in
  let title_lower := PyStr.lower (title a) in
  let score := fold_left (scan_title title_lower) RELEVANCE_KEYWORDS (fst st) in
  {| title := title a; link := link a; source := source a;
     published := published a; summary := summary a;
     relevance_score := score;
     matched_keywords := snd st;
     category := categorize CATEGORIES (snd st) |}.

(** *** The scorer as the specification words it *)







End Scorer.

(** ** Aggregation pipeline *)

Section Pipeline.
Variable R : Runtime.
Variable SETTINGS : Settings.
Variable RELEVANCE_KEYWORDS : list (string * Q).
Variable CATEGORIES : list (string * list string).
Variable DAILY_SOURCES WEEKLY_SOURCES : list (string * string).

(** [fetch_feed], lines 82-123.  How the body of the [try] block ended: *)
Inductive outcome :=
| Completed
| Raised (e : exn).

(** The loop over [feed.entries[:max_per_source]]; [articles] is the list
    being appended to, which survives an exception. *)
Fixpoint convert_entries (source_name : string) (cutoff_time : Z)
    (entries : list Entry) (articles : list Article) : list Article * outcome :=
  match entries with
  | [] => (articles, Completed)
  | entry :: rest =>
      let pub_date :=
        match published_parsed entry with
        | Some t => Some t
        | None => updated_parsed entry
        end in
      if match pub_date with Some t => (t <? cutoff_time)%Z | None => false end
      then convert_entries source_name cutoff_time rest articles
      else
        let summary :=
          match entry_summary entry with
          | Some s => PyStr.slice_to 500 (PyStr.strip_tags s)
          | None =>
              match entry_description entry with
              | Some s => PyStr.slice_to 500 (PyStr.strip_tags s)
              | None => EmptyString
              end
          end in
        match entry_title entry with
        | None => (articles, Raised AttributeError)
        | Some t =>
            match entry_link entry with
            | None => (articles, Raised AttributeError)
            | Some l =>
                convert_entries source_name cutoff_time rest
                  (articles ++ [new_article t l source_name pub_date summary])
            end
        end
  end.

(** The [try] block of [fetch_feed]. *)
Definition try_fetch (source_name feed_url : string) (lookback_hours : Z)
  : list Article * outcome :=
  let max_per_source := default 10%nat (max_articles_per_source SETTINGS) in
  match requests_get R feed_url with
  | Unreachable => ([], Raised ConnectionError)
  | BadStatus => ([], Raised HTTPError)
  | Feed entries =>
      let cutoff_time := (now R - 3600 * lookback_hours)%Z in
      convert_entries source_name cutoff_time (take max_per_source entries) []
  end.

(** [except Exception] logs and falls through to [return articles]. *)
Definition fetch_feed (source_name feed_url : string) (lookback_hours : Z)
  : list Article :=
  fst (try_fetch source_name feed_url lookback_hours).

(** One [for source_name, feed_url in ....items()] loop. *)
Definition fetch_sources (sources : list (string * string)) (lookback_hours : Z)
    (all_articles : list Article) : list Article :=
  fold_left
    (fun all_articles src => all_articles ++ fetch_feed (fst src) (snd src) lookback_hours)
    sources all_articles.

Definition collect_articles (include_weekly : bool) : list Article :=
  let lookback := default 24%Z (lookback_hours SETTINGS) in
  let all_articles := fetch_sources DAILY_SOURCES lookback [] in
  if include_weekly then fetch_sources WEEKLY_SOURCES 168 all_articles
  else all_articles.

(** [int(os.environ.get("MIN_RELEVANCE_SCORE", SETTINGS.get("min_relevance_score", 5)))] *)
Definition min_score : result Z :=
  PyNum.int
    match environ R !! "MIN_RELEVANCE_SCORE" with
    | Some s => VStr s
    | None => VNum (default 5%Q (min_relevance_score SETTINGS))
    end.

(** [[a for a in scored if a.relevance_score >= min_score]] *)
Definition relevant_at (min_score : Z) (scored : list Article) : list Article :=
  List.filter (fun a => Qle_bool (inject_Z min_score) (relevance_score a)) scored.

(** [fetch_all_sources], lines 166-196. *)
Definition fetch_all_sources (include_weekly : bool) : result (list Article) :=
  let all_articles := collect_articles include_weekly in
  let scored := map (score_relevance RELEVANCE_KEYWORDS CATEGORIES) all_articles in
  match min_score with
  | Raise e => Raise e
  | Ok min_score =>
      let max_articles := default 25%nat (max_articles_total SETTINGS) in
      let relevant := relevant_at min_score scored in
      let relevant := sort_desc relevance_score relevant in
      let relevant := take max_articles relevant in
      Ok relevant
  end.

(** *** The pipeline as the specification words it *)


(** The request for a source came back with a feed. *)
Definition responds (src : string * string) : bool :=
  match requests_get R (snd src) with
  | Feed _ => true
  | _ => false
  end.

(** The entry is recent enough to be converted and lacks a title or a link. *)
Definition entry_raises (cutoff_time : Z) (entry : Entry) : bool :=
  let pub_date :=
    match published_parsed entry with
    | Some t => Some t
    | None => updated_parsed entry
    end in
  negb match pub_date with Some t => (t <? cutoff_time)%Z | None => false end
  && match entry_title entry, entry_link entry with
     | Some _, Some _ => false
     | _, _ => true
     end.

End Pipeline.

(** ** Digest renderer *)

Import PyStr.

Definition html_style_lines : list string :=
  [ "<!DOCTYPE html>";
    "<html>";
    "<head>";
    "    <meta charset=" +:+ dq +:+ "utf-8" +:+ dq +:+ ">";
    "    <style>";
    "        body {";
    "            font-family: -apple-system, BlinkMacSystemFont, 'Segoe UI', Roboto, 'Helvetica Neue', Arial, sans-serif;";
    "            line-height: 1.6;";
    "            color: #333;";
    "            max-width: 700px;";
    "            margin: 0 auto;";
    "            padding: 20px;";
    "            background-color: #f5f5f5;";
    "        }";
    "        .container {";
    "            background-color: white;";
    "            border-radius: 8px;";
    "            padding: 30px;";
    "            box-shadow: 0 2px 4px rgba(0,0,0,0.1);";
    "        }";
    "        h1 {";
    "            color: #1a365d;";
    "            border-bottom: 3px solid #3182ce;";
    "            padding-bottom: 10px;";
    "            margin-bottom: 5px;";
    "        }";
    "        .subtitle {";
    "            color: #666;";
    "            font-size: 14px;";
    "            margin-bottom: 25px;";
    "        }";
    "        h2 {";
    "            color: #2c5282;";
    "            font-size: 18px;";
    "            margin-top: 30px;";
    "            margin-bottom: 15px;";
    "            padding: 8px 12px;";
    "            background-color: #ebf8ff;";
    "            border-left: 4px solid #3182ce;";
    "            border-radius: 0 4px 4px 0;";
    "        }";
    "        .article {";
    "            margin-bottom: 20px;";
    "            padding-bottom: 15px;";
    "            border-bottom: 1px solid #e2e8f0;";
    "        }";
    "        .article:last-child {";
    "            border-bottom: none;";
    "        }";
    "        .article-title {";
    "            font-size: 16px;";
    "            font-weight: 600;";
    "            margin-bottom: 5px;";
    "        }";
    "        .article-title a {";
    "            color: #2b6cb0;";
    "            text-decoration: none;";
    "        }";
    "        .article-title a:hover {";
    "            text-decoration: underline;";
    "        }";
    "        .article-meta {";
    "            font-size: 12px;";
    "            color: #718096;";
    "            margin-bottom: 8px;";
    "        }";
    "        .source {";
    "            background-color: #e2e8f0;";
    "            padding: 2px 8px;";
    "            border-radius: 12px;";
    "            font-weight: 500;";
    "        }";
    "        .score {";
    "            color: #38a169;";
    "            font-weight: 600;";
    "        }";
    "        .summary {";
    "            font-size: 14px;";
    "            color: #4a5568;";
    "        }";
    "        .keywords {";
    "            font-size: 11px;";
    "            color: #a0aec0;";
    "            margin-top: 5px;";
    "        }";
    "        .footer {";
    "            margin-top: 30px;";
    "            padding-top: 20px;";
    "            border-top: 1px solid #e2e8f0;";
    "            font-size: 12px;";
    "            color: #a0aec0;";
    "            text-align: center;";
    "        }";
    "        .no-articles {";
    "            color: #718096;";
    "            font-style: italic;";
    "            padding: 20px;";
    "            text-align: center;";
    "        }";
    "    </style>";
    "</head>";
    "<body>";
    "    <div class=" +:+ dq +:+ "container" +:+ dq +:+ ">" ].

Definition category_order : list string :=
  [ "Higher Ed Specific";
    "Strategy & Leadership";
    "Policy & Governance";
    "Enterprise Tech";
    "AI/ML Developments";
    "General" ].

(** The loop building [by_category]. *)
Definition group_step (by_category : gmap string (list Article)) (article : Article)
  : gmap string (list Article) :=
  let by_category :=
    match by_category !! category article with
    | None => <[category article := []]> by_category
    | Some _ => by_category
    end in
  alter (fun group => group ++ [article]) (category article) by_category.

Definition group_by_category (articles : list Article) : gmap string (list Article) :=
  fold_left group_step articles ∅.

Section Renderer.
Variable R : Runtime.

Definition html_head (articles : list Article) : string :=
  nl +:+ unlines
    (html_style_lines ++
     [ "        <h1>🎯 Enterprise AI Daily Briefing</h1>";
       "        <div class=" +:+ dq +:+ "subtitle" +:+ dq +:+ ">";
       "            Higher Education Focus • " +:+ strftime R (now R) "%A, %B %d, %Y"
         +:+ " • " +:+ of_nat (length articles) +:+ " high-signal items";
       "        </div>" ]).

Definition html_no_articles : string :=
  "<div class=" +:+ dq +:+ "no-articles" +:+ dq
  +:+ ">No high-relevance articles found today. Check back tomorrow!</div>".

Definition html_category (category : string) : string :=
  "<h2>" +:+ category +:+ "</h2>".

Definition html_article (article : Article) : string :=
  let pub_str :=
    match published article with
    | Some t => strftime R t "%b %d, %I:%M %p"
    | None => "Recent"
    end in
  let summary_text :=
    slice_to 300 (summary article)
    +:+ (if (300 <? len (summary article))%nat then "..." else EmptyString) in
  let keywords_text := join ", " (take 5 (matched_keywords article)) in
  nl +:+ unlines
    [ "        <div class=" +:+ dq +:+ "article" +:+ dq +:+ ">";
      "            <div class=" +:+ dq +:+ "article-title" +:+ dq +:+ ">";
      "                <a href=" +:+ dq +:+ link article +:+ dq +:+ " target=" +:+ dq
        +:+ "_blank" +:+ dq +:+ ">" +:+ title article +:+ "</a>";
      "            </div>";
      "            <div class=" +:+ dq +:+ "article-meta" +:+ dq +:+ ">";
      "                <span class=" +:+ dq +:+ "source" +:+ dq +:+ ">" +:+ source article
        +:+ "</span> • " +:+ pub_str +:+ " • ";
      "                <span class=" +:+ dq +:+ "score" +:+ dq +:+ ">Relevance: "
        +:+ PyNum.format_0f (relevance_score article) +:+ "</span>";
      "            </div>";
      "            <div class=" +:+ dq +:+ "summary" +:+ dq +:+ ">" +:+ summary_text +:+ "</div>";
      "            <div class=" +:+ dq +:+ "keywords" +:+ dq +:+ ">Tags: " +:+ keywords_text
        +:+ "</div>";
      "        </div>" ].

Definition html_foot : string :=
  nl +:+ unlines
    [ "        <div class=" +:+ dq +:+ "footer" +:+ dq +:+ ">";
      "            Generated by Enterprise AI News Aggregator<br>";
      "            Focused on: AI Strategy • Policy • Higher Education • Enterprise Deployment";
      "        </div>";
      "    </div>";
      "</body>";
      "</html>" ].

(** [generate_html_digest], lines 199-361. *)
Definition generate_html_digest (articles : list Article) : string :=
  let by_category := group_by_category articles in
  let html := html_head articles in
  let html :=
    match articles with
    | [] => html +:+ html_no_articles
    | _ :: _ =>
        fold_left
          (fun html category =>
             match by_category !! category with
             | Some group =>
                 fold_left (fun html article => html +:+ html_article article)
                   group (html +:+ html_category category)
             | None => html
             end)
          category_order html
    end in
  html +:+ html_foot.

Definition text_head (articles : list Article) : list string :=
  [ repeat "=" 60;
    "ENTERPRISE AI DAILY BRIEFING";
    "Higher Education Focus • " +:+ strftime R (now R) "%A, %B %d, %Y";
    of_nat (length articles) +:+ " high-signal items";
    repeat "=" 60;
    EmptyString ].

Definition text_category (category : string) : list string :=
  [ nl +:+ "▸ " +:+ upper category; repeat "-" 40 ].

Definition text_article (article : Article) : list string :=
  let pub_str :=
    match published article with
    | Some t => strftime R t "%b %d"
    | None => "Recent"
    end in
  [ nl +:+ "• " +:+ title article;
    "  [" +:+ source article +:+ "] " +:+ pub_str +:+ " | Score: "
      +:+ PyNum.format_0f (relevance_score article);
    "  " +:+ link article ].

(** [generate_text_digest], lines 364-402. *)
Definition generate_text_digest (articles : list Article) : string :=
  let lines := text_head articles in
  let by_category := group_by_category articles in
  let lines :=
    fold_left
      (fun lines category =>
         match by_category !! category with
         | Some group =>
             fold_left (fun lines article => lines ++ text_article article)
               group (lines ++ text_category category)
         | None => lines
         end)
      category_order lines in
  let lines := lines ++ [nl +:+ repeat "=" 60] in
  join nl lines.

(** *** The grouping as the specification words it *)

Definition in_category (c : string) (a : Article) : bool := String.eqb (category a) c.

(** The articles of each category, in input order, listed in [order]; a
    category without articles is left out. *)
Definition groups_in (order : list string) (articles : list Article)
  : list (string * list Article) :=
  List.filter (fun g => negb (Nat.eqb (length (snd g)) 0))
    (map (fun c => (c, List.filter (in_category c) articles)) order).

Definition spec_groups (articles : list Article) : list (string * list Article) :=
  groups_in category_order articles.

Definition concat_str (parts : list string) : string :=
  fold_right String.append EmptyString parts.

Definition html_group (g : string * list Article) : string :=
  html_category (fst g) +:+ concat_str (map html_article (snd g)).

Definition text_group (g : string * list Article) : list string :=
  text_category (fst g) ++ flat_map text_article (snd g).

End Renderer.

(** ** Feed entries, one at a time

    The steps of the loop body of [fetch_feed] (lines 96-118), named so
    that the loop can be compared with a filter and a map. *)

(** [pub_date]: the published date, else the updated date, else [None]. *)
Definition entry_pub_date (entry : Entry) : option Z :=
  match published_parsed entry with
  | Some t => Some t
  | None => updated_parsed entry
  end.

(** [pub_date and pub_date < cutoff_time]: the entry is skipped. *)
Definition is_stale (cutoff_time : Z) (entry : Entry) : bool :=
  match entry_pub_date entry with
  | Some t => (t <? cutoff_time)%Z
  | None => false
  end.

(** The summary, else the description, tags removed, at most 500 characters. *)
Definition entry_summary_text (entry : Entry) : string :=
  match entry_summary entry with
  | Some s => PyStr.slice_to 500 (PyStr.strip_tags s)
  | None =>
      match entry_description entry with
      | Some s => PyStr.slice_to 500 (PyStr.strip_tags s)
      | None => EmptyString
      end
  end.

(** The [Article(...)] call; [None] when [entry.title] or [entry.link] raises. *)
Definition article_of_entry (source_name : string) (entry : Entry) : option Article :=
  match entry_title entry, entry_link entry with
  | Some t, Some l =>
      Some (new_article t l source_name (entry_pub_date entry) (entry_summary_text entry))
  | _, _ => None
  end.

(** What every article leaving the loop of [fetch_feed] looks like. *)
Definition fresh_article (source_name : string) (cutoff : Z) (a : Article) : Prop :=
  source a = source_name
  /\ relevance_score a = 0%Q
  /\ matched_keywords a = []
  /\ category a = "General"
  /\ (PyStr.len (summary a) <= 500)%nat
  /\ PyStr.strip_tags (summary a) = summary a
  /\ (forall t, published a = Some t -> (cutoff <= t)%Z).

(** Text on which [re.sub(r'<[^>]+>', '', _)] finds nothing to remove:
    ordinary characters, the two characters [<>], and possibly a last [<]
    that no [>] follows. *)
Inductive tag_free : string -> Prop :=
| tag_free_nil : tag_free EmptyString
| tag_free_char (c : ascii) (s : string) :
    c <> "<"%char -> tag_free s -> tag_free (String c s)
| tag_free_pair (s : string) :
    tag_free s -> tag_free (String "<" (String ">" s))
| tag_free_open (w : string) :
    PyStr.contains ">" w = false -> tag_free (String "<" w).


(** An article with its summary and keywords blanked. *)
Definition without_details (a : Article) : Article :=
  {| title := title a; link := link a; source := source a;
     published := published a; summary := EmptyString;
     relevance_score := relevance_score a;
     matched_keywords := [];
     category := category a |}.

(** An article with the keywords after the fifth dropped. *)
Definition first_five_keywords (a : Article) : Article :=
  {| title := title a; link := link a; source := source a;
     published := published a; summary := summary a;
     relevance_score := relevance_score a;
     matched_keywords := take 5 (matched_keywords a);
     category := category a |}.

(** ** Delivery *)

(** What [send_email] hands to the SMTP session (lines 418-432). *)
Record Email := mkEmail {
  mail_server : string;
  mail_port : Z;
  mail_user : string;
  mail_password : string;
  mail_subject : string;
  mail_from : string;
  mail_to : string;
  mail_parts : list (string * string)
}.

(** Truth value of an [os.environ.get] result: set and not empty. *)
Definition truthy (v : option string) : bool :=
  match v with
  | Some (String _ _) => true
  | _ => false
  end.

(** The three credentials are set in the environment and none is empty. *)
Definition credentials (R : Runtime) (sender password recipient : string) : Prop :=
  environ R !! "SENDER_EMAIL" = Some sender
  /\ environ R !! "SENDER_PASSWORD" = Some password
  /\ environ R !! "RECIPIENT_EMAIL" = Some recipient
  /\ sender <> EmptyString /\ password <> EmptyString /\ recipient <> EmptyString.

Section Delivery.
Variable R : Runtime.

(** The [with smtplib.SMTP(...)] block: [true] when it ends without an
    exception. *)
Variable smtp : Email -> bool.

(** [send_email], lines 405-437: the value returned, and the messages handed
    to an SMTP session. *)
Definition send_email (html_content text_content : string)
  : result (bool * list Email) :=
  let smtp_server := default "smtp.gmail.com" (environ R !! "SMTP_SERVER") in
  match PyNum.int (VStr (default "587" (environ R !! "SMTP_PORT"))) with
  | Raise e => Raise e
  | Ok smtp_port =>
      let sender_email := environ R !! "SENDER_EMAIL" in
      let sender_password := environ R !! "SENDER_PASSWORD" in
      let recipient_email := environ R !! "RECIPIENT_EMAIL" in
      if negb (forallb truthy [sender_email; sender_password; recipient_email])
      then Ok (false, [])
      else
        let subject :=
          "🎯 Enterprise AI Briefing - " +:+ strftime R (now R) "%b %d, %Y" in
        let msg :=
          {| mail_server := smtp_server;
             mail_port := smtp_port;
             mail_user := default EmptyString sender_email;
             mail_password := default EmptyString sender_password;
             mail_subject := subject;
             mail_from := default EmptyString sender_email;
             mail_to := default EmptyString recipient_email;
             mail_parts := [("plain", text_content); ("html", html_content)] |} in
        Ok (smtp msg, [msg])
  end.

Variable SETTINGS : Settings.
Variable RELEVANCE_KEYWORDS : list (string * Q).
Variable CATEGORIES : list (string * list string).
Variable DAILY_SOURCES WEEKLY_SOURCES : list (string * string).

(** [AINewsDigest], lines 446-468: the messages handed to SMTP, or the
    exception that is logged and raised again. *)
Definition AINewsDigest (past_due : bool) : result (list Email) :=
  match fetch_all_sources R SETTINGS RELEVANCE_KEYWORDS CATEGORIES
          DAILY_SOURCES WEEKLY_SOURCES false with
  | Raise e => Raise e
  | Ok articles =>
      let html := generate_html_digest R articles in
      let text := generate_text_digest R articles in
      match send_email html text with
      | Raise e => Raise e
      | Ok (_, handed) => Ok handed
      end
  end.

End Delivery.
(** ** The scorer and the selection over Python's own numbers and text

    [score_relevance] and [fetch_all_sources] once more, this time with the
    built-ins they call taken as they come: whatever [+], [* 0.5], [<],
    [>=], [str.lower] and [int] compute in the interpreter that runs the
    program, floating-point rounding and Unicode case mapping included.
    What is proved for every [Python] below holds for that interpreter.
    The definitions of the sections above are the instance
    [exact_python]. *)

Record Python := mkPython {
  (** an [int] or a [float] *)
  num : Type;
  (** the [int] of a given value *)
  num_of_int : Z -> num;
  (** [x + y] *)
  num_add : num -> num -> num;
  (** [x * 0.5] *)
  num_half : num -> num;
  (** [x < y] *)
  num_lt : num -> num -> bool;
  (** [x >= n] for an [int] [n] *)
  num_ge_int : num -> Z -> bool;
  (** [s.lower()] *)
  str_lower : string -> string;
  (** [int(s)], [None] standing for [ValueError] *)
  str_int : string -> option Z
}.

(** An article after [score_relevance]: the five fields [fetch_feed] filled
    are those of [fetched]; [relevance], [matched] and [assigned_category]
    are the values assigned to [relevance_score], [matched_keywords] and
    [category]. *)
Record Scored (P : Python) := mkScored {
  fetched : Article;
  relevance : num P;
  matched : list string;
  assigned_category : string
}.
Arguments mkScored {P} _ _ _ _.
Arguments fetched {P} _.
Arguments relevance {P} _.
Arguments matched {P} _.
Arguments assigned_category {P} _.

(** [list.sort(key=..., reverse=True)] for keys compared with [lt]: an
    element moves past the earlier ones that are smaller, and past no
    other. *)
Section SortBy.
Context {A K : Type} (lt : K -> K -> bool) (key : A -> K).

Fixpoint insert_by (x : A) (l : list A) : list A :=
  match l with
  | [] => [x]
  | y :: r => if lt (key x) (key y) then y :: insert_by x r else x :: y :: r
  end.

Definition sort_by (l : list A) : list A := fold_right insert_by [] l.

End SortBy.

Section InPython.
Variable P : Python.
Variable RELEVANCE_KEYWORDS : list (string * num P).
Variable CATEGORIES : list (string * list string).

(** [categorize], lines 126-139. *)
Definition fragment_hit_in (category_keywords : list string) (kw : string) : bool :=
  existsb (fun ck => PyStr.contains ck (str_lower P kw)) category_keywords.

Definition category_score_in (category_keywords keywords : list string) : nat :=
  length (List.filter (fragment_hit_in category_keywords) keywords).

Definition category_scores_in (keywords : list string) : list (string * nat) :=
  fold_left
    (fun scores entry => dict_set scores (fst entry) (category_score_in (snd entry) keywords))
    CATEGORIES [].

Definition categorize_in (keywords : list string) : string :=
  match category_scores_in keywords with
  | [] => "General"
  | first :: rest =>
      let best := max_by_value first rest in
      if (0 <? snd best)%nat then fst best else "General"
  end.

(** Body of the first loop of [score_relevance]: full-text scan. *)
Definition scan_text_in (text : string) (st : num P * list string)
    (kw : string * num P) : num P * list string :=
  if PyStr.contains (str_lower P (fst kw)) text
  then (num_add P (fst st) (snd kw), snd st ++ [fst kw])
  else st.

(** Body of the second loop: title bonus. *)
Definition scan_title_in (title_lower : string) (score : num P)
    (kw : string * num P) : num P :=
  if PyStr.contains (str_lower P (fst kw)) title_lower
  then num_add P score (num_half P (snd kw))
  else score.

(** [score_relevance], lines 142-163; [score] starts as the [int] 0. *)
Definition score_relevance_in (a : Article) : Scored P :=
  let text := str_lower P (title a +:+ " " +:+ summary a) in
  let st := fold_left (scan_text_in text) RELEVANCE_KEYWORDS (num_of_int P 0, []) in
  let title_lower := str_lower P (title a) in
  let score := fold_left (scan_title_in title_lower) RELEVANCE_KEYWORDS (fst st) in
  {| fetched := a;
     relevance := score;
     matched := snd st;
     assigned_category := categorize_in (snd st) |}.

(** *** The scorer as the specification words it *)

Definition in_full_text_in (a : Article) (kw : string * num P) : bool :=
  PyStr.contains (str_lower P (fst kw)) (str_lower P (title a +:+ " " +:+ summary a)).

Definition in_title_in (a : Article) (kw : string * num P) : bool :=
  PyStr.contains (str_lower P (fst kw)) (str_lower P (title a)).

(** A sum taken the way the program can take one: each term added in turn
    to what has been accumulated. *)
Definition sum_onto (start : num P) (terms : list (num P)) : num P :=
  fold_left (num_add P) terms start.

(** The weights of the keywords found in the full text, summed from 0 in
    configuration order; then half the weight of every keyword found in the
    title, added in configuration order. *)
Definition spec_score_in (a : Article) : num P :=
  sum_onto
    (sum_onto (num_of_int P 0)
       (map snd (List.filter (in_full_text_in a) RELEVANCE_KEYWORDS)))
    (map (fun kw => num_half P (snd kw)) (List.filter (in_title_in a) RELEVANCE_KEYWORDS)).

Definition spec_matched_in (a : Article) : list string :=
  map fst (List.filter (in_full_text_in a) RELEVANCE_KEYWORDS).

(** *** Selection *)

Variable R : Runtime.
Variable SETTINGS : Settings.
Variable DAILY_SOURCES WEEKLY_SOURCES : list (string * string).

(** [int(v)] *)
Definition int_in (v : pyval) : result Z :=
  match v with
  | VStr s => match str_int P s with Some z => Ok z | None => Raise ValueError end
  | VNum q => Ok (PyNum.int_of_number q)
  end.

(** [int(os.environ.get("MIN_RELEVANCE_SCORE", SETTINGS.get("min_relevance_score", 5)))] *)
Definition min_score_in : result Z :=
  int_in
    match environ R !! "MIN_RELEVANCE_SCORE" with
    | Some s => VStr s
    | None => VNum (default 5%Q (min_relevance_score SETTINGS))
    end.

(** [[a for a in scored if a.relevance_score >= min_score]] *)
Definition relevant_in (min_score : Z) (scored : list (Scored P)) : list (Scored P) :=
  List.filter (fun a => num_ge_int P (relevance a) min_score) scored.

(** [fetch_all_sources], lines 166-196; [fetch_feed] does no arithmetic and
    is the one of the section above. *)
Definition fetch_all_sources_in (include_weekly : bool) : result (list (Scored P)) :=
  let all_articles :=
    collect_articles R SETTINGS DAILY_SOURCES WEEKLY_SOURCES include_weekly in
  let scored := map score_relevance_in all_articles in
  match min_score_in with
  | Raise e => Raise e
  | Ok min_score =>
      let max_articles := default 25%nat (max_articles_total SETTINGS) in
      let relevant := relevant_in min_score scored in
      let relevant := sort_by (num_lt P) relevance relevant in
      let relevant := take max_articles relevant in
      Ok relevant
  end.

(** *** The selection as the specification words it *)



(** [<] ranks the given scores: of two scores at most one is the smaller,
    and a score between two others in neither direction is ordered with
    them.  It does for every [int] and [float] that is not a NaN. *)
Definition ranked_by_lt (keys : list (num P)) : Prop :=
  forall x y z, In x keys -> In y keys -> In z keys ->
    (num_lt P x y = true -> num_lt P y x = false)
    /\ (num_lt P x z = true -> num_lt P x y = true \/ num_lt P y z = true).


End InPython.

(** What a run returned, article by article: title, score, matched
    keywords and category. *)
Definition selection {P : Python} (returned : result (list (Scored P)))
  : result (list (string * num P * list string * string)) :=
  match returned with
  | Ok selected =>
      Ok (map (fun a => (title (fetched a), relevance a, matched a, assigned_category a))
            selected)
  | Raise e => Raise e
  end.

(** *** Exact arithmetic on ASCII text

    The instance at which the sections above are written: rationals with
    their exact sum, letters A-Z folded.  It computes what the interpreter
    computes as long as no sum is rounded (integer weights and their halves,
    say) and the text is ASCII. *)
Definition exact_python : Python :=
  {| num := Q;
     num_of_int := inject_Z;
     num_add := Qplus;
     num_half := fun w => (w * (1 # 2))%Q;
     num_lt := fun x y => negb (Qle_bool y x);
     num_ge_int := fun x n => Qle_bool (inject_Z n) x;
     str_lower := PyStr.lower;
     str_int := PyNum.int_of_str |}.

Definition to_article (a : Scored exact_python) : Article :=
  {| title := title (fetched a); link := link (fetched a); source := source (fetched a);
     published := published (fetched a); summary := summary (fetched a);
     relevance_score := relevance a;
     matched_keywords := matched a;
     category := assigned_category a |}.

(** *** CPython's numbers

    An [int] is unbounded and exact; a [float] is a binary64 number, every
    operation rounded to nearest, ties to even.  An operation on an [int]
    and a [float] converts the [int] first.  ([OverflowError], for an [int]
    beyond the range of [float], is left out: the conversion gives an
    infinity.) *)
Inductive pynum :=
| PyInt (z : Z)
| PyFloat (f : float).

Definition float_of_int (z : Z) : float :=
  SF2Prim (binary_normalize prec emax z 0 false).

Definition to_float (x : pynum) : float :=
  match x with
  | PyInt z => float_of_int z
  | PyFloat f => f
  end.

Definition pynum_add (x y : pynum) : pynum :=
  match x, y with
  | PyInt a, PyInt b => PyInt (a + b)
  | _, _ => PyFloat (to_float x + to_float y)
  end.

Definition pynum_half (x : pynum) : pynum := PyFloat (to_float x * 0.5).

(** An [int] and a [float] are compared by their exact values; a NaN
    compares with nothing. *)
Definition compare_int_float (n : Z) (f : float) : option comparison :=
  match Prim2SF f with
  | S754_nan => None
  | S754_zero _ => Some (n ?= 0)%Z
  | S754_infinity negative => Some (if negative then Gt else Lt)
  | S754_finite negative m e =>
      let v := if negative then Z.neg m else Z.pos m in
      Some (if (0 <=? e)%Z then (n ?= v * 2 ^ e)%Z else (n * 2 ^ (- e) ?= v)%Z)
  end.

Definition pynum_lt (x y : pynum) : bool :=
  match x, y with
  | PyInt a, PyInt b => (a <? b)%Z
  | PyFloat f, PyFloat g => (f <? g)%float
  | PyInt a, PyFloat g =>
      match compare_int_float a g with Some Lt => true | _ => false end
  | PyFloat f, PyInt b =>
      match compare_int_float b f with Some Gt => true | _ => false end
  end.

Definition pynum_ge_int (x : pynum) (n : Z) : bool :=
  match x with
  | PyInt a => (n <=? a)%Z
  | PyFloat f =>
      match compare_int_float n f with Some Lt | Some Eq => true | _ => false end
  end.

(** CPython's arithmetic, with the case folding and the [int()] of the
    sections above. *)
Definition cpython : Python :=
  {| num := pynum;
     num_of_int := PyInt;
     num_add := pynum_add;
     num_half := pynum_half;
     num_lt := pynum_lt;
     num_ge_int := pynum_ge_int;
     str_lower := PyStr.lower;
     str_int := PyNum.int_of_str |}.

(** ** Sample data used by the closed examples *)

Definition sample_keywords : list (string * Q) :=
  [("AI governance", 10%Q); ("policy", 3%Q)].

Definition sample_categories : list (string * list string) :=
  [("Policy & Governance", ["governance"; "policy"]); ("Enterprise Tech", ["enterprise"])].

Definition sample_article : Article :=
  new_article "University AI Governance Policy Released" "https://example.edu/a"
    "Campus News" None "The senate approved the text.".








Definition good_entry : Entry :=
  mkEntry (Some "AI policy update") (Some "https://example.edu/1") None None
    (Some "<p>Campus <b>AI</b> rules</p>") None.

Definition untitled_entry : Entry :=
  mkEntry None (Some "https://example.edu/2") None None (Some "no title here") None.

Definition sample_feeds (url : string) : Response :=
  if String.eqb url "https://good.example/rss" then Feed [good_entry]
  else if String.eqb url "https://partial.example/rss" then Feed [good_entry; untitled_entry]
  else if String.eqb url "https://down.example/rss" then Unreachable
  else BadStatus.

Definition sample_strftime (t : Z) (format : string) : string :=
  if String.eqb format "%A, %B %d, %Y" then "Wednesday, November 04, 2026"
  else if String.eqb format "%b %d, %I:%M %p" then "Nov 04, 06:00 AM"
  else if String.eqb format "%b %d" then "Nov 04"
  else format.

Definition sample_runtime : Runtime :=
  mkRuntime sample_feeds 1000000 ∅ sample_strftime.

Definition bad_override_runtime : Runtime :=
  mkRuntime sample_feeds 1000000 {[ "MIN_RELEVANCE_SCORE" := "5.5" ]} sample_strftime.

Definition default_settings : Settings := mkSettings None None None None.

Definition fractional_settings : Settings := mkSettings None None None (Some (11 # 2)).

Definition five_point_keywords : list (string * Q) := [("campus", 5%Q)].

Definition sample_sources : list (string * string) :=
  [("Down", "https://down.example/rss"); ("Good", "https://good.example/rss")].

Definition good_article (source_name : string) : Article :=
  new_article "AI policy update" "https://example.edu/1" source_name None "Campus AI rules".

Definition tech_article : Article :=
  mkArticle "Cloud rollout" "https://example.edu/t" "IT Desk" (Some 999000%Z)
    "Enterprise rollout" (13 # 2) ["enterprise"] "Enterprise Tech".

Definition general_article : Article :=
  mkArticle "Campus notes" "https://example.edu/g" "Campus News" None
    "Notes" (15 # 2) ["ai"] "General".

Definition unlisted_article : Article :=
  mkArticle "Sports" "https://example.edu/s" "Campus News" None
    "Scores" 9 ["ai"] "Athletics".

Definition stale_untitled_entry : Entry :=
  mkEntry None None (Some 10%Z) None None None.

Definition mail_environ : gmap string string :=
  {[ "SENDER_EMAIL" := "digest@example.edu";
     "SENDER_PASSWORD" := "app-password";
     "RECIPIENT_EMAIL" := "cio@example.edu" ]}.

Definition mail_runtime : Runtime :=
  mkRuntime sample_feeds 1000000 mail_environ sample_strftime.

Definition bad_port_runtime : Runtime :=
  mkRuntime sample_feeds 1000000 {[ "SMTP_PORT" := "smtp" ]} sample_strftime.


(** Sample data in CPython's numbers. *)

(** The [float] 0.1. *)
Definition tenth : pynum := PyFloat 0x1.999999999999ap-4.

Definition ten_names : list string :=
  ["ai"; "ml"; "llm"; "gpu"; "data"; "cloud"; "policy"; "campus"; "ethics"; "audit"].

Definition tenth_keywords : list (string * pynum) := map (fun k => (k, tenth)) ten_names.

Definition exact_tenth_keywords : list (string * Q) := map (fun k => (k, 1 # 10)) ten_names.

Definition tenth_entry : Entry :=
  mkEntry (Some "Weekly notes") (Some "https://example.edu/w") None None
    (Some "ai ml llm gpu data cloud policy campus ethics audit") None.

Definition tenth_article : Article :=
  new_article "Weekly notes" "https://example.edu/w" "Campus News" None
    "ai ml llm gpu data cloud policy campus ethics audit".

Definition tenth_runtime : Runtime :=
  mkRuntime (fun _ => Feed [tenth_entry]) 1000000 ∅ sample_strftime.

Definition unit_settings : Settings := mkSettings None None None (Some 1%Q).

Definition campus_sources : list (string * string) :=
  [("Campus News", "https://campus.example/rss")].

Definition int_keywords : list (string * pynum) :=
  [("AI governance", PyInt 10); ("policy", PyInt 3)].

Definition campus_keywords : list (string * pynum) := [("campus", PyInt 5)].

Definition ranking_entries : list Entry :=
  [mkEntry (Some "AI policy update") (Some "https://example.edu/1") None None
     (Some "Campus AI rules") None;
   mkEntry (Some "Campus notes") (Some "https://example.edu/2") None None
     (Some "Minutes") None;
   mkEntry (Some "Sports") (Some "https://example.edu/3") None None
     (Some "Scores") None;
   mkEntry (Some "Campus forum") (Some "https://example.edu/4") None None
     (Some "Open session") None].

Definition ranking_runtime : Runtime :=
  mkRuntime (fun _ => Feed ranking_entries) 1000000 ∅ sample_strftime.

Definition bad_override_ranking_runtime : Runtime :=
  mkRuntime (fun _ => Feed ranking_entries) 1000000
    {[ "MIN_RELEVANCE_SCORE" := "5.5" ]} sample_strftime.

Definition campus_article (t l sm : string) : Article :=
  new_article t l "Campus News" None sm.

(** * Verification *)

(** ** Strings *)

Module PyStrFacts.

Lemma app_cons (c : ascii) (a b : string) : String c a +:+ b = String c (a +:+ b).
Proof. reflexivity. Qed.

Lemma app_nil_r (a : string) : a +:+ EmptyString = a.
Proof. induction a as [|c a IH]; [reflexivity|]. rewrite app_cons, IH. reflexivity. Qed.

Lemma app_assoc (a b c : string) : (a +:+ b) +:+ c = a +:+ (b +:+ c).
Proof.
  induction a as [|x a IH]; [reflexivity|].
  rewrite !app_cons, IH. reflexivity.
Qed.



Lemma startswith_app (p r : string) : startswith p (p +:+ r) = true.
Proof.
  induction p as [|c p IH]; [reflexivity|].
  rewrite app_cons. cbn [startswith]. destruct (ascii_dec c c); [exact IH | congruence].
Qed.

Lemma startswith_inv (p s : string) :
  startswith p s = true -> exists r, s = p +:+ r.
Proof.
  revert s. induction p as [|c p IH]; intros s H.
  - exists s. reflexivity.
  - destruct s as [|d s]; [discriminate|]. cbn [startswith] in H.
    destruct (ascii_dec c d) as [->|]; [|discriminate].
    destruct (IH s H) as [r ->]. exists r. reflexivity.
Qed.

Lemma contains_intro (a p b : string) : contains p (a +:+ p +:+ b) = true.
Proof.
  induction a as [|c a IH].
  - change (EmptyString +:+ p +:+ b) with (p +:+ b).
    destruct (p +:+ b) eqn:E; cbn [contains]; rewrite <- E, startswith_app; reflexivity.
  - rewrite app_cons. cbn [contains]. rewrite IH. apply orb_true_r.
Qed.

Lemma contains_inv (p s : string) :
  contains p s = true -> exists a b, s = a +:+ p +:+ b.
Proof.
  induction s as [|c s IH]; cbn [contains]; intros H.
  - rewrite orb_false_r in H. destruct (startswith_inv _ _ H) as [r ->].
    exists EmptyString, r. reflexivity.
  - apply orb_true_iff in H as [H|H].
    + destruct (startswith_inv _ _ H) as [r ->]. exists EmptyString, r. reflexivity.
    + destruct (IH H) as (a & b & ->). exists (String c a), b. reflexivity.
Qed.

(** A substring of [a] is a substring of [a] followed by anything. *)
Lemma contains_app_l (p a b : string) :
  contains p a = true -> contains p (a +:+ b) = true.
Proof.
  intros H. destruct (contains_inv _ _ H) as (x & y & ->).
  rewrite !app_assoc. apply contains_intro.
Qed.

Lemma contains_app_r (p a b : string) :
  contains p b = true -> contains p (a +:+ b) = true.
Proof.
  intros H. destruct (contains_inv _ _ H) as (x & y & ->).
  rewrite <- app_assoc. apply contains_intro.
Qed.

End PyStrFacts.

(** ** Scorer *)

Section ScorerFacts.
Variable RELEVANCE_KEYWORDS : list (string * Q).
Variable CATEGORIES : list (string * list string).












End ScorerFacts.




Example sample_article_scored :
  let a := score_relevance sample_keywords sample_categories sample_article in
  (Qeq_bool (relevance_score a) (39 # 2), matched_keywords a, category a)
  = (true, ["AI governance"; "policy"], "Policy & Governance").
Proof. vm_compute. reflexivity. Qed.

(** ** The title bonus and the matched list *)



(** ** Monotonicity of the score *)






(** ** Threshold filter *)

(** C8. Filtering is monotonic in the threshold: for thresholds
    [m1 <= m2], an article that passes the filter at [m2] passes it at
    [m1]; the pool kept at [m2] is the pool kept at [m1], filtered again. *)
Theorem relevant_at_monotone (scored : list Article) (m1 m2 : Z) :
  (m1 <= m2)%Z ->
  (forall a, In a (relevant_at m2 scored) -> In a (relevant_at m1 scored))
  /\ relevant_at m2 scored = relevant_at m2 (relevant_at m1 scored).
Proof.
  intros Hle.
  assert (Hpass : forall a : Article,
             Qle_bool (inject_Z m2) (relevance_score a) = true ->
             Qle_bool (inject_Z m1) (relevance_score a) = true).
  { intros a H. apply Qle_bool_iff. apply Qle_bool_iff in H.
    apply Qle_trans with (inject_Z m2); [|exact H].
    rewrite <- Zle_Qle. exact Hle. }
  split.
  - intros a H. unfold relevant_at in *. apply filter_In in H as [Hin H].
    apply filter_In. split; [exact Hin | now apply Hpass].
  - unfold relevant_at. induction scored as [|a l IH]; [reflexivity|].
    cbn [List.filter].
    destruct (Qle_bool (inject_Z m2) (relevance_score a)) eqn:E2.
    + rewrite (Hpass a E2). cbn [List.filter]. rewrite E2. now f_equal.
    + destruct (Qle_bool (inject_Z m1) (relevance_score a)); [|exact IH].
      cbn [List.filter]. rewrite E2. exact IH.
Qed.

Lemma relevant_at_monotone_witness :
  (5 <= 6)%Z
  /\ forall a,
       In a (relevant_at 6 [score_relevance sample_keywords sample_categories sample_article]) ->
       In a (relevant_at 5 [score_relevance sample_keywords sample_categories sample_article]).
Proof.
  assert (H : (5 <= 6)%Z) by lia.
  split; [exact H|].
  exact (proj1 (relevant_at_monotone
                  [score_relevance sample_keywords sample_categories sample_article] 5 6 H)).
Defined.

(** ** Categorizer *)

Section CategorizerFacts.

Lemma dict_set_fresh {V} (d : list (string * V)) (k : string) (v : V) :
  ~ In k (map fst d) -> dict_set d k v = d ++ [(k, v)].
Proof.
  induction d as [|[k' v'] d IH]; intros Hk; [reflexivity|].
  cbn [dict_set]. destruct (String.eqb_spec k' k) as [->|Hne].
  - exfalso. apply Hk. now left.
  - cbn [app]. f_equal. apply IH. intros H. apply Hk. now right.
Qed.

Lemma category_scores_from (keywords : list string)
    (cats : list (string * list string)) (acc : list (string * nat)) :
  List.NoDup (map fst acc ++ map fst cats) ->
  fold_left
    (fun scores entry => dict_set scores (fst entry) (category_score (snd entry) keywords))
    cats acc
  = acc ++ map (fun entry => (fst entry, category_score (snd entry) keywords)) cats.
Proof.
  revert acc. induction cats as [|e cats IH]; intros acc Hnd; cbn [fold_left map].
  - now rewrite app_nil_r.
  - cbn [map] in Hnd. rewrite dict_set_fresh.
    + rewrite IH.
      * now rewrite <- app_assoc.
      * rewrite map_app. cbn [map fst]. rewrite <- app_assoc. exact Hnd.
    + apply List.NoDup_remove_2 in Hnd. intros H. apply Hnd, in_or_app. now left.
Qed.

Lemma category_scores_map (CATEGORIES : list (string * list string))
    (keywords : list string) :
  List.NoDup (map fst CATEGORIES) ->
  category_scores CATEGORIES keywords
  = map (fun entry => (fst entry, category_score (snd entry) keywords)) CATEGORIES.
Proof.
  intros Hnd. unfold category_scores. now rewrite category_scores_from.
Qed.

(** [max_by_value] picks the first entry of maximal value. *)
Lemma max_by_value_first_max (best : string * nat) (rest : list (string * nat)) :
  exists pre post,
    best :: rest = pre ++ max_by_value best rest :: post
    /\ Forall (fun x => snd x < snd (max_by_value best rest))%nat pre
    /\ Forall (fun x => snd x <= snd (max_by_value best rest))%nat post
    /\ (snd best <= snd (max_by_value best rest))%nat.
Proof.
  revert best. induction rest as [|x r IH]; intros best; cbn [max_by_value].
  - exists [], []. repeat split; auto.
  - destruct (Nat.ltb_spec (snd best) (snd x)) as [Hlt|Hge].
    + destruct (IH x) as (pre & post & E & Hpre & Hpost & Hx).
      set (m := max_by_value x r) in *.
      exists (best :: pre), post. repeat split; auto; try lia.
      * cbn [app]. f_equal. exact E.
      * constructor; [lia | exact Hpre].
    + destruct (IH best) as (pre & post & E & Hpre & Hpost & Hb).
      set (m := max_by_value best r) in *.
      destruct pre as [|b pre]; cbn [app] in E; injection E as Eb Er.
      * exists [], (x :: post). repeat split; auto.
        -- cbn [app]. rewrite <- Eb. do 2 f_equal. exact Er.
        -- constructor; [lia | exact Hpost].
      * subst b. apply List.Forall_cons_iff in Hpre as [Hbest Hpre].
        exists (best :: x :: pre), post. repeat split; auto.
        -- cbn [app]. do 2 f_equal. exact Er.
        -- constructor; [exact Hbest|]. constructor; [lia | exact Hpre].
Qed.

End CategorizerFacts.

(** C3. For every matched-keyword list and every category configuration
    (a dictionary: no label occurs twice), [categorize] returns the category
    whose fragment-containment count over the keywords is maximal, the first
    such category in configuration order on a tie; when every count is 0, and
    so whenever the keyword list is empty, it returns ["General"]. *)
Theorem categorize_first_maximal
    (CATEGORIES : list (string * list string)) (keywords : list string) :
  List.NoDup (map fst CATEGORIES) ->
  (Forall (fun entry => category_score (snd entry) keywords = 0%nat) CATEGORIES ->
   categorize CATEGORIES keywords = "General")
  /\ (keywords = [] -> categorize CATEGORIES keywords = "General")
  /\ (Exists (fun entry => 0 < category_score (snd entry) keywords)%nat CATEGORIES ->
      exists pre best post,
        CATEGORIES = pre ++ best :: post
        /\ categorize CATEGORIES keywords = fst best
        /\ Forall (fun entry => category_score (snd entry) keywords
                                < category_score (snd best) keywords)%nat pre
        /\ Forall (fun entry => category_score (snd entry) keywords
                                <= category_score (snd best) keywords)%nat post).
Proof.
  intros Hnd.
  set (score_of := fun entry : string * list string =>
                     (fst entry, category_score (snd entry) keywords)).
  assert (Hscores : category_scores CATEGORIES keywords = map score_of CATEGORIES)
    by (apply category_scores_map; exact Hnd).
  assert (Hzero : Forall (fun entry => category_score (snd entry) keywords = 0%nat) CATEGORIES ->
                  categorize CATEGORIES keywords = "General").
  { intros Hall. unfold categorize. rewrite Hscores.
    destruct (map score_of CATEGORIES) as [|first rest] eqn:E; [reflexivity|].
    destruct (max_by_value_first_max first rest) as (pre & post & Ed & _ & _ & _).
    assert (Hin : In (max_by_value first rest) (map score_of CATEGORIES)).
    { rewrite E, Ed. apply in_or_app. right. now left. }
    apply in_map_iff in Hin as (entry & Hentry & Hin).
    rewrite List.Forall_forall in Hall. specialize (Hall entry Hin).
    rewrite <- Hentry. cbn [score_of snd]. rewrite Hall. reflexivity. }
  split; [exact Hzero|]. split.
  - intros ->. apply Hzero. apply List.Forall_forall. intros entry _. reflexivity.
  - intros Hsome. unfold categorize. rewrite Hscores.
    destruct (map score_of CATEGORIES) as [|first rest] eqn:E.
    { apply List.map_eq_nil in E. subst. inversion Hsome. }
    destruct (max_by_value_first_max first rest) as (pre & post & Ed & Hpre & Hpost & _).
    set (m := max_by_value first rest) in *.
    rewrite Ed in E.
    apply List.map_eq_app in E as (pre' & tl & -> & Epre & Etl).
    apply List.map_eq_cons in Etl as (best & post' & -> & Ebest & Epost).
    assert (Hm : snd m = category_score (snd best) keywords) by (now rewrite <- Ebest).
    assert (Hpre' : Forall (fun entry => category_score (snd entry) keywords
                                         < category_score (snd best) keywords)%nat pre').
    { rewrite <- Epre in Hpre. rewrite List.Forall_map in Hpre.
      rewrite Hm in Hpre. exact Hpre. }
    assert (Hpost' : Forall (fun entry => category_score (snd entry) keywords
                                          <= category_score (snd best) keywords)%nat post').
    { rewrite <- Epost in Hpost. rewrite List.Forall_map in Hpost.
      rewrite Hm in Hpost. exact Hpost. }
    assert (Hposm : (0 < snd m)%nat).
    { rewrite Hm. apply List.Exists_exists in Hsome as (entry & Hin & Hentry).
      rewrite List.Forall_forall in Hpre', Hpost'.
      apply in_app_or in Hin as [Hin|[<-|Hin]].
      - specialize (Hpre' entry Hin). lia.
      - exact Hentry.
      - specialize (Hpost' entry Hin). lia. }
    exists pre', best, post'. split; [reflexivity|]. split.
    + destruct (Nat.ltb_spec 0 (snd m)); [|lia]. now rewrite <- Ebest.
    + split; assumption.
Qed.

Lemma categorize_first_maximal_witness :
  List.NoDup (map fst sample_categories)
  /\ Forall (fun entry => category_score (snd entry) ["weather"] = 0%nat) sample_categories
  /\ categorize sample_categories ["weather"] = "General"
  /\ Exists (fun entry => 0 < category_score (snd entry) ["AI governance"])%nat
        sample_categories
  /\ exists pre best post,
        sample_categories = pre ++ best :: post
        /\ categorize sample_categories ["AI governance"] = fst best
        /\ Forall (fun entry => category_score (snd entry) ["AI governance"]
                                < category_score (snd best) ["AI governance"])%nat pre
        /\ Forall (fun entry => category_score (snd entry) ["AI governance"]
                                <= category_score (snd best) ["AI governance"])%nat post.
Proof.
  assert (Hnd : List.NoDup (map fst sample_categories)).
  { apply List.NoDup_cons; [|apply List.NoDup_cons; [|apply List.NoDup_nil]].
    - intros [H|[]]. discriminate H.
    - intros []. }
  assert (Hzero : Forall (fun entry => category_score (snd entry) ["weather"] = 0%nat)
                    sample_categories)
    by (repeat constructor).
  assert (Hsome : Exists (fun entry => 0 < category_score (snd entry) ["AI governance"])%nat
                    sample_categories)
    by (apply Exists_cons_hd; vm_compute; lia).
  split; [exact Hnd | split; [exact Hzero | split]].
  - exact (proj1 (categorize_first_maximal sample_categories ["weather"] Hnd) Hzero).
  - split; [exact Hsome|].
    exact (proj2 (proj2 (categorize_first_maximal sample_categories ["AI governance"] Hnd))
             Hsome).
Defined.

Example categorize_tie_takes_first :
  categorize [("B", ["x"]); ("A", ["x"; "y"]); ("C", ["y"])] ["x-ray"; "yellow"] = "A"
  /\ categorize [("B", ["x"]); ("A", ["x"]); ("C", ["z"])] ["fox"; "zebra"] = "B"
  /\ categorize [("B", ["X"])] ["x-ray"] = "General".
Proof. repeat split; vm_compute; reflexivity. Qed.

(** ** The stable descending sort *)

Section SortFacts.
Context {A : Type} (key : A -> Q).

Lemma insert_desc_perm (x : A) (l : list A) : Permutation (insert_desc key x l) (x :: l).
Proof.
  induction l as [|y r IH]; cbn [insert_desc]; [reflexivity|].
  destruct (Qle_bool (key y) (key x)); [reflexivity|].
  rewrite IH. apply perm_swap.
Qed.

Lemma sort_desc_perm (l : list A) : Permutation (sort_desc key l) l.
Proof.
  induction l as [|x l IH]; [reflexivity|].
  unfold sort_desc. cbn [fold_right]. rewrite insert_desc_perm.
  apply perm_skip. exact IH.
Qed.

Lemma insert_desc_sorted (x : A) (l : list A) :
  StronglySorted (descending key) l -> StronglySorted (descending key) (insert_desc key x l).
Proof.
  induction l as [|y r IH]; intros Hs; cbn [insert_desc].
  - constructor; constructor.
  - apply StronglySorted_inv in Hs as [Hr Hy].
    destruct (Qle_bool (key y) (key x)) eqn:E.
    + apply Qle_bool_iff in E. constructor.
      * constructor; assumption.
      * constructor; [exact E|].
        rewrite List.Forall_forall in Hy |- *. intros z Hz.
        unfold descending in *. apply Qle_trans with (key y); [apply Hy, Hz | exact E].
    + assert (Hlt : (key x <= key y)%Q).
      { apply Qlt_le_weak, Qnot_le_lt. intros H. apply Qle_bool_iff in H. congruence. }
      constructor; [apply IH; exact Hr|].
      rewrite List.Forall_forall in Hy |- *. intros z Hz.
      apply (Permutation_in _ (insert_desc_perm x r)) in Hz as [<-|Hz];
        [exact Hlt | apply Hy, Hz].
Qed.

Lemma sort_desc_sorted (l : list A) : StronglySorted (descending key) (sort_desc key l).
Proof.
  induction l as [|x l IH]; [constructor|].
  unfold sort_desc. cbn [fold_right]. apply insert_desc_sorted. exact IH.
Qed.

(** Stability: the elements of any one key keep their order. *)
Lemma insert_desc_stable (q : Q) (x : A) (l : list A) :
  List.filter (fun a => Qeq_bool (key a) q) (insert_desc key x l)
  = List.filter (fun a => Qeq_bool (key a) q) (x :: l).
Proof.
  induction l as [|y r IH]; cbn [insert_desc]; [reflexivity|].
  destruct (Qle_bool (key y) (key x)) eqn:E; [reflexivity|].
  cbn [List.filter] in IH |- *. rewrite IH.
  destruct (Qeq_bool (key x) q) eqn:Ex, (Qeq_bool (key y) q) eqn:Ey; try reflexivity.
  exfalso. apply Qeq_bool_iff in Ex, Ey.
  assert (H : Qle_bool (key y) (key x) = true).
  { apply Qle_bool_iff. rewrite Ex, Ey. apply Qle_refl. }
  congruence.
Qed.

Lemma sort_desc_stable (q : Q) (l : list A) :
  List.filter (fun a => Qeq_bool (key a) q) (sort_desc key l)
  = List.filter (fun a => Qeq_bool (key a) q) l.
Proof.
  induction l as [|x l IH]; [reflexivity|].
  unfold sort_desc. cbn [fold_right]. rewrite insert_desc_stable.
  cbn [List.filter]. fold (sort_desc key l). rewrite IH. reflexivity.
Qed.

End SortFacts.

Example sort_desc_keeps_ties_in_order :
  sort_desc fst [(1%Q, "a"); (3%Q, "b"); (1%Q, "c"); (3%Q, "d"); (2%Q, "e")]
  = [(3%Q, "b"); (3%Q, "d"); (2%Q, "e"); (1%Q, "a"); (1%Q, "c")].
Proof. vm_compute. reflexivity. Qed.

(** ** Python [int()] *)

Example int_of_str_samples :
  map PyNum.int_of_str ["5"; " 42 "; "+7"; "-12"; "1_000"; "abc"; "5.5"; EmptyString; "1__0"; "7_"]
  = [Some 5; Some 42; Some 7; Some (-12); Some 1000; None; None; None; None; None]%Z.
Proof. vm_compute. reflexivity. Qed.

(** [int()] skips blanks but not the separators U+001C to U+001F, reads a
    no-break space as a blank and the digits of any script as digits, and
    refuses more than 4300 digits. *)
Example int_of_str_unicode_samples :
  map PyNum.int_of_str
    [String "028" "5"; "5" +:+ String "009" (String "013" EmptyString);
     "5" +:+ String "194" (String "160" EmptyString); "５８７";
     "٤٢"; "5é"; "５_０"; "＋5"; PyStr.repeat "1" 4300 +:+ "x"]
  = [None; Some 5; Some 5; Some 587; Some 42; None; Some 50; None; None]%Z
  /\ PyNum.int_of_str (PyStr.repeat "0" 4300) = Some 0%Z
  /\ PyNum.int_of_str (PyStr.repeat "0" 4301) = None.
Proof. vm_compute. repeat split; reflexivity. Qed.

(** [int()] on a number drops the fractional part, towards zero. *)
Lemma int_of_number_truncates (q : Q) :
  ((0 <= q -> inject_Z (PyNum.int_of_number q) <= q /\ q < inject_Z (PyNum.int_of_number q + 1))
   /\ (q <= 0 -> inject_Z (PyNum.int_of_number q - 1) < q /\ q <= inject_Z (PyNum.int_of_number q)))%Q.
Proof.
  destruct q as [n d]. unfold PyNum.int_of_number, Qle, Qlt. cbn [Qnum Qden inject_Z].
  pose proof (Z.quot_rem' n (Z.pos d)) as Hqr.
  split; intros Hsign.
  -
    assert (Hn : (0 <= n)%Z) by lia.
    pose proof (Z.rem_bound_pos n (Z.pos d) Hn ltac:(lia)).
    set (m := (n ÷ Z.pos d)%Z) in *. set (r := Z.rem n (Z.pos d)) in *.
    clearbody m r. lia.
  - assert (Hn : (n <= 0)%Z) by lia.
    pose proof (Z.rem_bound_pos_neg n (Z.pos d) ltac:(lia) Hn) as Hb.
    set (m := (n ÷ Z.pos d)%Z) in *. set (r := Z.rem n (Z.pos d)) in *.
    clearbody m r. lia.
Qed.

(** ** Aggregation pipeline *)

Section PipelineFacts.
Variable R : Runtime.
Variable SETTINGS : Settings.

Lemma fetch_sources_flat_map (sources : list (string * string)) (lookback : Z)
    (all_articles : list Article) :
  fetch_sources R SETTINGS sources lookback all_articles
  = all_articles
    ++ flat_map (fun src => fetch_feed R SETTINGS (fst src) (snd src) lookback) sources.
Proof.
  unfold fetch_sources. revert all_articles.
  induction sources as [|src sources IH]; intros all_articles; cbn [fold_left flat_map].
  - now rewrite app_nil_r.
  - rewrite IH. now rewrite <- app_assoc.
Qed.

Lemma failed_request_empty (source_name feed_url : string) (lookback : Z) :
  responds R (source_name, feed_url) = false ->
  fetch_feed R SETTINGS source_name feed_url lookback = [].
Proof.
  unfold responds, fetch_feed, try_fetch. cbn [snd].
  destruct (requests_get R feed_url); [reflexivity | reflexivity | discriminate].
Qed.

Lemma flat_map_responding (sources : list (string * string)) (lookback : Z) :
  flat_map (fun src => fetch_feed R SETTINGS (fst src) (snd src) lookback)
    (List.filter (responds R) sources)
  = flat_map (fun src => fetch_feed R SETTINGS (fst src) (snd src) lookback) sources.
Proof.
  induction sources as [|[name url] sources IH]; [reflexivity|].
  cbn [List.filter flat_map]. destruct (responds R (name, url)) eqn:E.
  - cbn [flat_map]. now rewrite IH.
  - cbn [fst snd]. rewrite (failed_request_empty name url lookback E). exact IH.
Qed.

Lemma collect_articles_responding (DAILY WEEKLY : list (string * string)) (inc : bool) :
  collect_articles R SETTINGS (List.filter (responds R) DAILY)
    (List.filter (responds R) WEEKLY) inc
  = collect_articles R SETTINGS DAILY WEEKLY inc.
Proof.
  unfold collect_articles. rewrite !fetch_sources_flat_map, !flat_map_responding.
  reflexivity.
Qed.

Lemma collect_articles_flat_map (DAILY WEEKLY : list (string * string)) (inc : bool) :
  collect_articles R SETTINGS DAILY WEEKLY inc
  = flat_map (fun src => fetch_feed R SETTINGS (fst src) (snd src)
                           (default 24%Z (lookback_hours SETTINGS))) DAILY
    ++ (if inc
        then flat_map (fun src => fetch_feed R SETTINGS (fst src) (snd src) 168) WEEKLY
        else []).
Proof.
  unfold collect_articles. rewrite !fetch_sources_flat_map. cbn [app].
  destruct inc; [reflexivity | now rewrite app_nil_r].
Qed.

(** Entries converted without an exception can be processed in two runs. *)
Lemma convert_entries_app (source_name : string) (cutoff : Z)
    (before rest : list Entry) (articles : list Article) :
  snd (convert_entries source_name cutoff before articles) = Completed ->
  convert_entries source_name cutoff (before ++ rest) articles
  = convert_entries source_name cutoff rest
      (fst (convert_entries source_name cutoff before articles)).
Proof.
  revert articles. induction before as [|entry before IH]; intros articles H; [reflexivity|].
  cbn [app convert_entries] in H |- *.
  destruct (match match published_parsed entry with
                  | Some t => Some t
                  | None => updated_parsed entry
                  end with
            | Some t => (t <? cutoff)%Z
            | None => false
            end); [now apply IH|].
  destruct (entry_title entry); [|discriminate H].
  destruct (entry_link entry); [|discriminate H].
  now apply IH.
Qed.

Lemma convert_entries_raises (source_name : string) (cutoff : Z)
    (entry : Entry) (rest : list Entry) (articles : list Article) :
  entry_raises cutoff entry = true ->
  convert_entries source_name cutoff (entry :: rest) articles
  = (articles, Raised AttributeError).
Proof.
  unfold entry_raises. cbn [convert_entries]. intros H.
  apply andb_true_iff in H as [Hrecent Hmissing]. apply negb_true_iff in Hrecent.
  rewrite Hrecent.
  destruct (entry_title entry); [|reflexivity].
  destruct (entry_link entry); [discriminate Hmissing | reflexivity].
Qed.

End PipelineFacts.

(** ** Selection: threshold, ranking, cap *)


(** ** Isolation of per-source failures *)

(** C6, as stated, fails when the error comes from an entry: the feed's
    second entry has no title, the [try] block raises, and the source still
    contributes the article built from the first entry. *)
Lemma failing_source_keeps_converted_articles :
  try_fetch sample_runtime default_settings "Partial" "https://partial.example/rss" 24
  = ([good_article "Partial"], Raised AttributeError)
  /\ fetch_feed sample_runtime default_settings "Partial" "https://partial.example/rss" 24
     = [good_article "Partial"].
Proof. split; vm_compute; reflexivity. Qed.

(** C6, amended.  A source whose request fails (no response, or an error
    status) contributes zero articles; a source that raises while an entry
    is converted contributes the articles built from the entries before it.
    In neither case is the run aborted: the pool is the concatenation of
    what each source contributed, and [fetch_all_sources] returns what it
    would return had the sources whose request failed not been configured. *)
Theorem fetch_failure_is_isolated
    (R : Runtime) (SETTINGS : Settings)
    (RELEVANCE_KEYWORDS : list (string * Q)) (CATEGORIES : list (string * list string))
    (DAILY_SOURCES WEEKLY_SOURCES : list (string * string)) (include_weekly : bool) :
  (forall source_name feed_url lookback,
      responds R (source_name, feed_url) = false ->
      (exists e, try_fetch R SETTINGS source_name feed_url lookback = ([], Raised e))
      /\ fetch_feed R SETTINGS source_name feed_url lookback = [])
  /\ (forall source_name feed_url lookback entries before bad after,
        requests_get R feed_url = Feed entries ->
        take (default 10%nat (max_articles_per_source SETTINGS)) entries
        = before ++ bad :: after ->
        snd (convert_entries source_name (now R - 3600 * lookback) before []) = Completed ->
        entry_raises (now R - 3600 * lookback) bad = true ->
        try_fetch R SETTINGS source_name feed_url lookback
        = (fst (convert_entries source_name (now R - 3600 * lookback) before []),
           Raised AttributeError))
  /\ collect_articles R SETTINGS DAILY_SOURCES WEEKLY_SOURCES include_weekly
     = flat_map (fun src => fetch_feed R SETTINGS (fst src) (snd src)
                              (default 24%Z (lookback_hours SETTINGS))) DAILY_SOURCES
       ++ (if include_weekly
           then flat_map (fun src => fetch_feed R SETTINGS (fst src) (snd src) 168)
                  WEEKLY_SOURCES
           else [])
  /\ fetch_all_sources R SETTINGS RELEVANCE_KEYWORDS CATEGORIES
       DAILY_SOURCES WEEKLY_SOURCES include_weekly
     = fetch_all_sources R SETTINGS RELEVANCE_KEYWORDS CATEGORIES
         (List.filter (responds R) DAILY_SOURCES)
         (List.filter (responds R) WEEKLY_SOURCES) include_weekly.
Proof.
  split; [|split; [|split]].
  - intros source_name feed_url lookback Hfail. split.
    + unfold responds in Hfail. unfold try_fetch. cbn [snd] in Hfail.
      destruct (requests_get R feed_url); [eauto | eauto | discriminate Hfail].
    + now apply failed_request_empty.
  - intros source_name feed_url lookback entries before bad after Hfeed Htake Hdone Hbad.
    unfold try_fetch. rewrite Hfeed, Htake.
    rewrite convert_entries_app by exact Hdone.
    now apply convert_entries_raises.
  - apply collect_articles_flat_map.
  - unfold fetch_all_sources. now rewrite collect_articles_responding.
Qed.

Lemma fetch_failure_is_isolated_witness :
  responds sample_runtime ("Down", "https://down.example/rss") = false
  /\ fetch_feed sample_runtime default_settings "Down" "https://down.example/rss" 24 = []
  /\ fetch_all_sources sample_runtime default_settings five_point_keywords []
       sample_sources [] false
     = fetch_all_sources sample_runtime default_settings five_point_keywords []
         [("Good", "https://good.example/rss")] [] false.
Proof.
  assert (H : responds sample_runtime ("Down", "https://down.example/rss") = false)
    by (vm_compute; reflexivity).
  pose proof (fetch_failure_is_isolated sample_runtime default_settings five_point_keywords []
                sample_sources [] false) as (Hzero & _ & _ & Hsame).
  split; [exact H | split].
  - exact (proj2 (Hzero "Down" "https://down.example/rss" 24%Z H)).
  - exact Hsame.
Defined.

Example one_failing_one_succeeding_source :
  fetch_all_sources sample_runtime default_settings five_point_keywords []
    sample_sources [] false
  = Ok [score_relevance five_point_keywords [] (good_article "Good")].
Proof. vm_compute. reflexivity. Qed.

(** ** Digest renderer *)

Section RendererFacts.
Variable R : Runtime.

Lemma filter_in_category_snoc (c : string) (l : list Article) (a : Article) :
  List.filter (in_category c) (l ++ [a])
  = List.filter (in_category c) l ++ (if in_category c a then [a] else []).
Proof. rewrite List.filter_app. reflexivity. Qed.

Lemma group_step_lookup (m : gmap string (list Article)) (a : Article) (c : string) :
  group_step m a !! c
  = if in_category c a then Some (default [] (m !! c) ++ [a]) else m !! c.
Proof.
  unfold group_step, in_category. destruct (String.eqb_spec (category a) c) as [<-|Hne].
  - rewrite lookup_alter_eq. destruct (m !! category a) as [g|] eqn:E.
    + rewrite E. reflexivity.
    + rewrite lookup_insert_eq. reflexivity.
  - rewrite lookup_alter_ne by exact Hne.
    destruct (m !! category a); [reflexivity|]. now rewrite lookup_insert_ne.
Qed.

(** The dictionary built by the grouping loop holds, under each category
    that occurs, the articles of that category in input order. *)
Lemma group_by_category_lookup (articles : list Article) (c : string) :
  group_by_category articles !! c
  = match List.filter (in_category c) articles with
    | [] => None
    | g => Some g
    end.
Proof.
  unfold group_by_category.
  induction articles as [|a l IH] using rev_ind; [apply lookup_empty|].
  rewrite fold_left_app. cbn [fold_left]. rewrite group_step_lookup, IH.
  rewrite filter_in_category_snoc.
  destruct (in_category c a).
  - destruct (List.filter (in_category c) l); reflexivity.
  - now rewrite app_nil_r.
Qed.

Lemma concat_str_cons (x : string) (l : list string) :
  concat_str (x :: l) = x +:+ concat_str l.
Proof. reflexivity. Qed.

Lemma html_articles_fold (group : list Article) (html : string) :
  fold_left (fun html article => html +:+ html_article R article) group html
  = html +:+ concat_str (map (html_article R) group).
Proof.
  revert html. induction group as [|a g IH]; intros html; cbn [fold_left map].
  - apply eq_sym, PyStrFacts.app_nil_r.
  - rewrite IH, concat_str_cons. now rewrite PyStrFacts.app_assoc.
Qed.

Lemma text_articles_fold (group : list Article) (lines : list string) :
  fold_left (fun lines article => lines ++ text_article R article) group lines
  = lines ++ flat_map (text_article R) group.
Proof.
  revert lines. induction group as [|a g IH]; intros lines; cbn [fold_left flat_map].
  - now rewrite app_nil_r.
  - rewrite IH. now rewrite <- app_assoc.
Qed.

Lemma groups_in_cons (c : string) (order : list string) (articles : list Article) :
  groups_in (c :: order) articles
  = match List.filter (in_category c) articles with
    | [] => groups_in order articles
    | g => (c, g) :: groups_in order articles
    end.
Proof.
  unfold groups_in. cbn [map List.filter snd].
  destruct (List.filter (in_category c) articles); reflexivity.
Qed.

Lemma html_sections_fold (articles : list Article) (order : list string) (html : string) :
  fold_left
    (fun html category =>
       match group_by_category articles !! category with
       | Some group =>
           fold_left (fun html article => html +:+ html_article R article)
             group (html +:+ html_category category)
       | None => html
       end)
    order html
  = html +:+ concat_str (map (html_group R) (groups_in order articles)).
Proof.
  revert html. induction order as [|c order IH]; intros html; cbn [fold_left].
  - apply eq_sym, PyStrFacts.app_nil_r.
  - rewrite IH, groups_in_cons, group_by_category_lookup.
    destruct (List.filter (in_category c) articles) as [|a g] eqn:E; [reflexivity|].
    rewrite html_articles_fold.
    change (map (html_group R) ((c, a :: g) :: groups_in order articles))
      with (html_group R (c, a :: g) :: map (html_group R) (groups_in order articles)).
    rewrite (concat_str_cons (html_group R (c, a :: g))).
    change (html_group R (c, a :: g))
      with (html_category c +:+ concat_str (map (html_article R) (a :: g))).
    rewrite !PyStrFacts.app_assoc. reflexivity.
Qed.

Lemma text_sections_fold (articles : list Article) (order : list string) (lines : list string) :
  fold_left
    (fun lines category =>
       match group_by_category articles !! category with
       | Some group =>
           fold_left (fun lines article => lines ++ text_article R article)
             group (lines ++ text_category category)
       | None => lines
       end)
    order lines
  = lines ++ flat_map (text_group R) (groups_in order articles).
Proof.
  revert lines. induction order as [|c order IH]; intros lines; cbn [fold_left].
  - apply eq_sym, app_nil_r.
  - rewrite IH, groups_in_cons, group_by_category_lookup.
    destruct (List.filter (in_category c) articles) as [|a g] eqn:E; [reflexivity|].
    rewrite text_articles_fold.
    change (flat_map (text_group R) ((c, a :: g) :: groups_in order articles))
      with ((text_category c ++ flat_map (text_article R) (a :: g))
            ++ flat_map (text_group R) (groups_in order articles)).
    rewrite <- !app_assoc. reflexivity.
Qed.

Lemma groups_in_labels (order : list string) (articles : list Article) :
  map fst (groups_in order articles)
  = List.filter (fun c => existsb (in_category c) articles) order.
Proof.
  induction order as [|c order IH]; [reflexivity|].
  rewrite groups_in_cons. cbn [List.filter].
  assert (H : existsb (in_category c) articles
              = negb (Nat.eqb (length (List.filter (in_category c) articles)) 0)).
  { clear. induction articles as [|a l IHl]; [reflexivity|].
    cbn [existsb List.filter]. destruct (in_category c a); [reflexivity | exact IHl]. }
  rewrite H. destruct (List.filter (in_category c) articles); cbn; now rewrite IH.
Qed.

Lemma groups_in_member (order : list string) (articles : list Article)
    (c : string) (g : list Article) :
  In (c, g) (groups_in order articles) ->
  In c order /\ g = List.filter (in_category c) articles /\ g <> [].
Proof.
  unfold groups_in. intros H. apply filter_In in H as [H Hne].
  apply in_map_iff in H as (c' & E & Hin). injection E as -> <-.
  split; [exact Hin|]. split; [reflexivity|].
  cbn [snd] in Hne. destruct (List.filter (in_category c) articles); [discriminate|congruence].
Qed.

End RendererFacts.

(** C7. Both renderers partition the articles by category, each group
    keeping the input order of its articles; they emit the groups in the
    fixed display order; an article whose category is not in that order is
    left out of the output. *)
Theorem digests_group_by_display_order (R : Runtime) (articles : list Article) :
  generate_html_digest R articles
  = html_head R articles
    +:+ match articles with
        | [] => html_no_articles
        | _ :: _ => concat_str (map (html_group R) (spec_groups articles))
        end
    +:+ html_foot
  /\ generate_text_digest R articles
     = join nl (text_head R articles
                ++ flat_map (text_group R) (spec_groups articles)
                ++ [nl +:+ repeat "=" 60])
  /\ map fst (spec_groups articles)
     = List.filter (fun c => existsb (in_category c) articles) category_order
  /\ (forall c g, In (c, g) (spec_groups articles) ->
                  g = List.filter (in_category c) articles)
  /\ (forall a c g, In (c, g) (spec_groups articles) -> In a g ->
                    In a articles /\ category a = c /\ In c category_order)
  /\ (forall a, In a articles -> In (category a) category_order ->
                exists g, In (category a, g) (spec_groups articles) /\ In a g).
Proof.
  split; [|split; [|split; [|split; [|split]]]].
  - unfold generate_html_digest. destruct articles as [|a l].
    + now rewrite PyStrFacts.app_assoc.
    + rewrite html_sections_fold. now rewrite PyStrFacts.app_assoc.
  - unfold generate_text_digest. rewrite text_sections_fold.
    now rewrite <- app_assoc.
  - apply groups_in_labels.
  - intros c g H. now apply groups_in_member in H.
  - intros a c g H Ha. apply groups_in_member in H as (Hc & -> & _).
    apply filter_In in Ha as [Hin Hcat]. apply String.eqb_eq in Hcat.
    repeat split; assumption.
  - intros a Hin Hcat. exists (List.filter (in_category (category a)) articles).
    assert (Ha : In a (List.filter (in_category (category a)) articles)).
    { apply filter_In. split; [exact Hin | apply String.eqb_refl]. }
    split; [|exact Ha].
    unfold spec_groups, groups_in. apply filter_In. split.
    + apply in_map_iff. exists (category a). split; [reflexivity | exact Hcat].
    + cbn [snd]. destruct (List.filter (in_category (category a)) articles);
        [destruct Ha | reflexivity].
Qed.

Lemma digests_group_by_display_order_witness :
  spec_groups [general_article; tech_article; unlisted_article]
  = [("Enterprise Tech", [tech_article]); ("General", [general_article])]
  /\ generate_text_digest sample_runtime [general_article; tech_article; unlisted_article]
     = join nl (text_head sample_runtime [general_article; tech_article; unlisted_article]
                ++ flat_map (text_group sample_runtime)
                     (spec_groups [general_article; tech_article; unlisted_article])
                ++ [nl +:+ repeat "=" 60]).
Proof.
  split; [vm_compute; reflexivity|].
  exact (proj1 (proj2 (digests_group_by_display_order sample_runtime
                         [general_article; tech_article; unlisted_article]))).
Defined.

(** C4 (the code departs from the claim).  For the empty article list the
    HTML digest is the page head, the "No high-relevance articles found
    today" block and the page foot; the text digest is the header, the
    count line and the closing rule, with no message that no articles were
    found. *)
Theorem empty_digest_rendering (R : Runtime) :
  generate_html_digest R [] = html_head R [] +:+ html_no_articles +:+ html_foot
  /\ contains "No high-relevance articles found today." (generate_html_digest R []) = true
  /\ generate_text_digest R []
     = join nl
         [ repeat "=" 60;
           "ENTERPRISE AI DAILY BRIEFING";
           "Higher Education Focus • " +:+ strftime R (now R) "%A, %B %d, %Y";
           "0 high-signal items";
           repeat "=" 60;
           EmptyString;
           nl +:+ repeat "=" 60 ]
  /\ contains "articles found" (lower (generate_text_digest sample_runtime [])) = false
  /\ contains "no " (lower (generate_text_digest sample_runtime [])) = false.
Proof.
  assert (Hhtml : generate_html_digest R [] = html_head R [] +:+ html_no_articles +:+ html_foot).
  { unfold generate_html_digest. now rewrite PyStrFacts.app_assoc. }
  split; [exact Hhtml|]. split.
  - rewrite Hhtml. apply PyStrFacts.contains_app_r, PyStrFacts.contains_app_l.
    vm_compute. reflexivity.
  - split; [reflexivity|]. split; vm_compute; reflexivity.
Qed.
(** * The scorer and the selection in Python's own arithmetic *)

(** ** The two loops of the scorer *)

Section ScorerInPython.
Variable P : Python.
Variable RELEVANCE_KEYWORDS : list (string * num P).
Variable CATEGORIES : list (string * list string).

Lemma sum_onto_cons (start x : num P) (terms : list (num P)) :
  sum_onto P start (x :: terms) = sum_onto P (num_add P start x) terms.
Proof. reflexivity. Qed.

(** The first loop adds the weights of the keywords found, in the order
    of the configuration, and appends their names. *)
Lemma scan_text_in_fold (text : string) (kws : list (string * num P))
    (st : num P * list string) :
  let found kw := contains (str_lower P (fst kw)) text in
  fold_left (scan_text_in P text) kws st
  = (sum_onto P (fst st) (map snd (List.filter found kws)),
     snd st ++ map fst (List.filter found kws)).
Proof.
  intros found. revert st.
  induction kws as [|kw kws IH]; intros [score names]; cbn [fold_left List.filter].
  - cbn [map fst snd sum_onto fold_left]. now rewrite app_nil_r.
  - rewrite IH. unfold scan_text_in. subst found. cbn beta.
    destruct (contains (str_lower P (fst kw)) text); cbn [map fst snd].
    + rewrite sum_onto_cons, <- app_assoc. reflexivity.
    + reflexivity.
Qed.

(** The second loop adds half the weight of the keywords found, in the
    order of the configuration. *)
Lemma scan_title_in_fold (title_lower : string) (kws : list (string * num P))
    (score : num P) :
  let found kw := contains (str_lower P (fst kw)) title_lower in
  fold_left (scan_title_in P title_lower) kws score
  = sum_onto P score (map (fun kw => num_half P (snd kw)) (List.filter found kws)).
Proof.
  intros found. revert score.
  induction kws as [|kw kws IH]; intros score; cbn [fold_left List.filter]; [reflexivity|].
  rewrite IH. unfold scan_title_in. subst found. cbn beta.
  destruct (contains (str_lower P (fst kw)) title_lower); reflexivity.
Qed.

End ScorerInPython.

(** C1. For every article and every relevance configuration,
    [score_relevance] sets [relevance_score] to the sum of the weights of
    the configured keywords whose lowercase form occurs in the lowercase
    [title + " " + summary], plus half the weight of every configured
    keyword whose lowercase form occurs in the lowercase title; and it sets
    [matched_keywords] to the keywords found in the full text, in
    configuration order, the title pass adding nothing to the list.  The sum
    is the one the interpreter's [+] yields when the terms are added one
    after the other in configuration order, the weights first, the halves
    after them; lowercase is the interpreter's [str.lower]. *)
Theorem score_relevance_in_spec
    (P : Python) (RELEVANCE_KEYWORDS : list (string * num P))
    (CATEGORIES : list (string * list string)) (a : Article) :
  relevance (score_relevance_in P RELEVANCE_KEYWORDS CATEGORIES a)
  = spec_score_in P RELEVANCE_KEYWORDS a
  /\ matched (score_relevance_in P RELEVANCE_KEYWORDS CATEGORIES a)
     = spec_matched_in P RELEVANCE_KEYWORDS a.
Proof.
  unfold score_relevance_in, spec_score_in, spec_matched_in. cbn [relevance matched].
  rewrite scan_title_in_fold, scan_text_in_fold. cbn [fst snd app].
  split; reflexivity.
Qed.

(** The scorer of the first part is this one at [exact_python]. *)
Lemma score_relevance_exact
    (RELEVANCE_KEYWORDS : list (string * Q)) (CATEGORIES : list (string * list string))
    (a : Article) :
  to_article (score_relevance_in exact_python RELEVANCE_KEYWORDS CATEGORIES a)
  = score_relevance RELEVANCE_KEYWORDS CATEGORIES a.
Proof. reflexivity. Qed.

(** Ten weights of 0.1 add up to 0.9999999999999999 in the interpreter and
    to 1 in exact arithmetic; a title match of weight 0.1 gives
    0.15000000000000002; integer weights stay integers until a half is
    added. *)
Example rounded_scores :
  relevance (score_relevance_in cpython tenth_keywords [] tenth_article)
  = PyFloat 0x1.fffffffffffffp-1
  /\ Qeq_bool
       (relevance (score_relevance_in exact_python exact_tenth_keywords [] tenth_article)) 1
     = true
  /\ relevance (score_relevance_in cpython [("weekly", tenth)] [] tenth_article)
     = PyFloat 0x1.3333333333334p-3
  /\ relevance (score_relevance_in cpython [("ai", PyInt 10); ("ml", PyInt 3)] [] tenth_article)
     = PyInt 13
  /\ relevance (score_relevance_in cpython int_keywords sample_categories sample_article)
     = PyFloat 19.5.
Proof. vm_compute. repeat split; reflexivity. Qed.

(** ** The stable descending sort *)

Section SortByFacts.
Context {A K : Type} (lt : K -> K -> bool) (key : A -> K).
Variable keys : list K.
Hypothesis ranked :
  forall x y z, In x keys -> In y keys -> In z keys ->
    (lt x y = true -> lt y x = false)
    /\ (lt x z = true -> lt x y = true \/ lt y z = true).







End SortByFacts.

(** Comparing with [<] and moving past the smaller is the sort of the first
    part when the keys are rationals. *)
Lemma insert_by_exact {A : Type} (key : A -> Q) (x : A) (l : list A) :
  insert_by (num_lt exact_python) key x l = insert_desc key x l.
Proof.
  induction l as [|y r IH]; [reflexivity|]. cbn [insert_by insert_desc]. rewrite IH.
  change (num_lt exact_python (key x) (key y)) with (negb (Qle_bool (key y) (key x))).
  destruct (Qle_bool (key y) (key x)); reflexivity.
Qed.

Lemma sort_by_exact {A : Type} (key : A -> Q) (l : list A) :
  sort_by (num_lt exact_python) key l = sort_desc key l.
Proof.
  unfold sort_by, sort_desc. induction l as [|x l IH]; [reflexivity|].
  cbn [fold_right]. rewrite IH. apply insert_by_exact.
Qed.

Lemma sort_desc_map {A B : Type} (f : A -> B) (key : B -> Q) (l : list A) :
  map f (sort_desc (fun a => key (f a)) l) = sort_desc key (map f l).
Proof.
  unfold sort_desc. induction l as [|x l IH]; [reflexivity|].
  cbn [fold_right map]. rewrite <- IH.
  generalize (fold_right (insert_desc (fun a => key (f a))) [] l) as r.
  induction r as [|y r IHr]; [reflexivity|].
  cbn [insert_desc map]. destruct (Qle_bool (key (f y)) (key (f x))); [reflexivity|].
  cbn [map]. now rewrite IHr.
Qed.

(** ** Selection: threshold, ranking, cap *)

(** The selection of the first part is this one at [exact_python]. *)
Lemma fetch_all_sources_exact
    (R : Runtime) (SETTINGS : Settings)
    (RELEVANCE_KEYWORDS : list (string * Q)) (CATEGORIES : list (string * list string))
    (DAILY_SOURCES WEEKLY_SOURCES : list (string * string)) (include_weekly : bool) :
  match fetch_all_sources_in exact_python RELEVANCE_KEYWORDS CATEGORIES R SETTINGS
          DAILY_SOURCES WEEKLY_SOURCES include_weekly with
  | Ok selected => Ok (map to_article selected)
  | Raise e => Raise e
  end
  = fetch_all_sources R SETTINGS RELEVANCE_KEYWORDS CATEGORIES
      DAILY_SOURCES WEEKLY_SOURCES include_weekly.
Proof.
  unfold fetch_all_sources_in, fetch_all_sources.
  change (min_score_in exact_python R SETTINGS) with (min_score R SETTINGS).
  destruct (min_score R SETTINGS) as [minimum|e]; [|reflexivity].
  f_equal. rewrite <- firstn_map. f_equal.
  rewrite sort_by_exact.
  change (@relevance exact_python) with (fun a => relevance_score (to_article a)).
  rewrite (sort_desc_map to_article relevance_score). f_equal.
  unfold relevant_in, relevant_at.
  generalize (collect_articles R SETTINGS DAILY_SOURCES WEEKLY_SOURCES include_weekly) as pool.
  induction pool as [|a pool IH]; [reflexivity|].
  cbn [map List.filter].
  change (num_ge_int exact_python
            (relevance (score_relevance_in exact_python RELEVANCE_KEYWORDS CATEGORIES a))
            minimum)
    with (Qle_bool (inject_Z minimum)
            (relevance_score (score_relevance RELEVANCE_KEYWORDS CATEGORIES a))).
  destruct (Qle_bool (inject_Z minimum)
              (relevance_score (score_relevance RELEVANCE_KEYWORDS CATEGORIES a)));
    cbn [map]; rewrite IH; reflexivity.
Qed.



(** Rational scores are always ranked by [<]. *)
Lemma exact_python_ranked (keys : list Q) : ranked_by_lt exact_python keys.
Proof.
  intros x y z _ _ _. cbn [num_lt exact_python].
  assert (Hlt : forall a b : Q, negb (Qle_bool b a) = true <-> (a < b)%Q).
  { intros a b. rewrite negb_true_iff. split; intros H.
    - apply Qnot_le_lt. intros Hle. apply Qle_bool_iff in Hle. congruence.
    - destruct (Qle_bool b a) eqn:E; [|reflexivity].
      apply Qle_bool_iff in E. exfalso. exact (Qlt_not_le _ _ H E). }
  split.
  - intros H. apply Hlt in H. apply negb_false_iff, Qle_bool_iff, Qlt_le_weak, H.
  - intros H. apply Hlt in H. destruct (Qlt_le_dec x y) as [Hxy|Hyx].
    + left. now apply Hlt.
    + right. apply Hlt. exact (Qle_lt_trans _ _ _ Hyx H).
Qed.


(** The ranking on that pool: two articles at 7.5 in feed order, then the
    one at 5; the article without a match is dropped. *)
Example ranking_sample :
  selection
    (fetch_all_sources_in cpython campus_keywords [] ranking_runtime default_settings
       campus_sources [] false)
  = Ok [("Campus notes", PyFloat 7.5, ["campus"], "General");
        ("Campus forum", PyFloat 7.5, ["campus"], "General");
        ("AI policy update", PyInt 5, ["campus"], "General")].
Proof. vm_compute. reflexivity. Qed.

(** Rounding decides the selection: ten weights of 0.1 stay below a
    minimum of 1 in the interpreter, and reach it in exact arithmetic. *)
Example rounded_sum_misses_the_minimum :
  selection
    (fetch_all_sources_in cpython tenth_keywords [] tenth_runtime unit_settings
       campus_sources [] false)
  = Ok []
  /\ match fetch_all_sources_in exact_python exact_tenth_keywords [] tenth_runtime
             unit_settings campus_sources [] false with
     | Ok selected =>
         map (fun a : Scored exact_python => (title (fetched a), Qred (relevance a))) selected
     | Raise _ => []
     end = [("Weekly notes", 1%Q)].
Proof. vm_compute. split; reflexivity. Qed.

(** ** Integer conversion of the minimum *)

(** C10. When the [MIN_RELEVANCE_SCORE] override is present and [int()]
    rejects it, [fetch_all_sources] raises instead of falling back to the
    configured default; when the override is absent, the configured
    minimum goes through [int()], so a fractional minimum is cut off to an
    integer before the filter is applied. *)
Theorem min_score_in_goes_through_int
    (P : Python) (R : Runtime) (SETTINGS : Settings)
    (RELEVANCE_KEYWORDS : list (string * num P)) (CATEGORIES : list (string * list string))
    (DAILY_SOURCES WEEKLY_SOURCES : list (string * string)) (include_weekly : bool) :
  (forall s,
      environ R !! "MIN_RELEVANCE_SCORE" = Some s ->
      str_int P s = None ->
      fetch_all_sources_in P RELEVANCE_KEYWORDS CATEGORIES R SETTINGS
        DAILY_SOURCES WEEKLY_SOURCES include_weekly = Raise ValueError)
  /\ (forall q,
        environ R !! "MIN_RELEVANCE_SCORE" = None ->
        min_relevance_score SETTINGS = Some q ->
        fetch_all_sources_in P RELEVANCE_KEYWORDS CATEGORIES R SETTINGS
          DAILY_SOURCES WEEKLY_SOURCES include_weekly
        = Ok (take (default 25%nat (max_articles_total SETTINGS))
                (sort_by (num_lt P) relevance
                   (relevant_in P (PyNum.int_of_number q)
                      (map (score_relevance_in P RELEVANCE_KEYWORDS CATEGORIES)
                         (collect_articles R SETTINGS DAILY_SOURCES WEEKLY_SOURCES
                            include_weekly)))))
        /\ (0 <= q ->
            inject_Z (PyNum.int_of_number q) <= q
            /\ q < inject_Z (PyNum.int_of_number q + 1))%Q
        /\ (q <= 0 ->
            inject_Z (PyNum.int_of_number q - 1) < q
            /\ q <= inject_Z (PyNum.int_of_number q))%Q).
Proof.
  split.
  - intros s Henv Hbad. unfold fetch_all_sources_in, min_score_in. rewrite Henv.
    cbn [int_in]. rewrite Hbad. reflexivity.
  - intros q Henv Hcfg. split.
    + unfold fetch_all_sources_in, min_score_in. rewrite Henv, Hcfg. reflexivity.
    + apply int_of_number_truncates.
Qed.

Lemma min_score_in_goes_through_int_witness :
  (environ bad_override_ranking_runtime !! "MIN_RELEVANCE_SCORE" = Some "5.5"
   /\ str_int cpython "5.5" = None
   /\ fetch_all_sources_in cpython campus_keywords [] bad_override_ranking_runtime
        fractional_settings campus_sources [] false = Raise ValueError)
  /\ (environ ranking_runtime !! "MIN_RELEVANCE_SCORE" = None
      /\ min_relevance_score fractional_settings = Some (11 # 2)
      /\ PyNum.int_of_number (11 # 2) = 5%Z
      /\ fetch_all_sources_in cpython campus_keywords [] ranking_runtime
           fractional_settings campus_sources [] false
         = Ok (take 25
                 (sort_by (num_lt cpython) relevance
                    (relevant_in cpython (PyNum.int_of_number (11 # 2))
                       (map (score_relevance_in cpython campus_keywords [])
                          (collect_articles ranking_runtime fractional_settings
                             campus_sources [] false)))))).
Proof.
  assert (H1 : environ bad_override_ranking_runtime !! "MIN_RELEVANCE_SCORE" = Some "5.5")
    by (vm_compute; reflexivity).
  assert (H2 : str_int cpython "5.5" = None) by (vm_compute; reflexivity).
  assert (H3 : environ ranking_runtime !! "MIN_RELEVANCE_SCORE" = None)
    by (vm_compute; reflexivity).
  assert (H4 : min_relevance_score fractional_settings = Some (11 # 2)) by reflexivity.
  split.
  - split; [exact H1 | split; [exact H2|]].
    exact (proj1 (min_score_in_goes_through_int cpython bad_override_ranking_runtime
                    fractional_settings campus_keywords [] campus_sources [] false)
             "5.5" H1 H2).
  - split; [exact H3 | split; [exact H4 | split; [reflexivity|]]].
    exact (proj1 (proj2 (min_score_in_goes_through_int cpython ranking_runtime
                           fractional_settings campus_keywords [] campus_sources [] false)
                    (11 # 2) H3 H4)).
Defined.

(** With the minimum configured as 5.5 the article of score 5 is selected. *)
Example fractional_minimum_in_cpython :
  selection
    (fetch_all_sources_in cpython campus_keywords [] ranking_runtime
       fractional_settings campus_sources [] false)
  = Ok [("Campus notes", PyFloat 7.5, ["campus"], "General");
        ("Campus forum", PyFloat 7.5, ["campus"], "General");
        ("AI policy update", PyInt 5, ["campus"], "General")].
Proof. vm_compute. reflexivity. Qed.

(** * Further properties of the code *)

(** ** Tag removal *)

Section StripTagsFacts.

Lemma startswith_char (c d : ascii) (r : string) :
  startswith (String c EmptyString) (String d r) = if ascii_dec c d then true else false.
Proof. cbn [startswith]. destruct (ascii_dec c d); reflexivity. Qed.

Lemma contains_char_cons (c d : ascii) (r : string) :
  contains (String c EmptyString) (String d r)
  = (if ascii_dec c d then true else false) || contains (String c EmptyString) r.
Proof. cbn [contains]. rewrite startswith_char. reflexivity. Qed.

Lemma contains_char_app (c : ascii) (a b : string) :
  contains (String c EmptyString) (a +:+ b)
  = contains (String c EmptyString) a || contains (String c EmptyString) b.
Proof.
  induction a as [|d a IH].
  - change (EmptyString +:+ b) with b. reflexivity.
  - rewrite PyStrFacts.app_cons, !contains_char_cons, IH. now rewrite orb_assoc.
Qed.

Lemma contains_char_slice (c : ascii) (n : nat) (s : string) :
  contains (String c EmptyString) s = false ->
  contains (String c EmptyString) (slice_to n s) = false.
Proof.
  revert n. induction s as [|d s IH]; intros n H; [reflexivity|].
  rewrite contains_char_cons in H. apply orb_false_iff in H as [Hd Hs].
  cbn [slice_to]. destruct (is_continuation d); [|destruct n; [reflexivity|]];
    rewrite contains_char_cons, Hd, (IH _ Hs); reflexivity.
Qed.

(** With no [>] ahead, a pending [<] and all that follows is kept. *)
Lemma strip_tags_from_unclosed (w buf : string) :
  contains ">" w = false -> strip_tags_from w (Some buf) = buf +:+ w.
Proof.
  revert buf. induction w as [|c w IH]; intros buf H; cbn [strip_tags_from].
  - cbn. now rewrite PyStrFacts.app_nil_r.
  - rewrite contains_char_cons in H. apply orb_false_iff in H as [Hc Hw].
    destruct (ascii_dec c ">") as [->|Hne].
    + destruct (ascii_dec ">" ">"); [discriminate Hc | congruence].
    + rewrite (IH _ Hw), PyStrFacts.app_assoc. reflexivity.
Qed.

Lemma tag_free_fixed (s : string) : tag_free s -> strip_tags s = s.
Proof.
  unfold strip_tags. induction 1 as [|c s Hc _ IH|s _ IH|w Hw].
  - reflexivity.
  - cbn [strip_tags_from]. destruct (ascii_dec c "<"); [contradiction|]. now rewrite IH.
  - cbn [strip_tags_from]. cbn. rewrite IH. reflexivity.
  - cbn [strip_tags_from]. cbn. now rewrite strip_tags_from_unclosed.
Qed.

Lemma strip_tags_from_tag_free (s : string) :
  tag_free (strip_tags_from s None)
  /\ forall w, contains ">" w = false -> tag_free (strip_tags_from s (Some (String "<" w))).
Proof.
  induction s as [|c s [IHn IHs]]; split.
  - constructor.
  - intros w Hw. cbn. now apply tag_free_open.
  - cbn [strip_tags_from]. destruct (ascii_dec c "<").
    + apply (IHs EmptyString). reflexivity.
    + now apply tag_free_char.
  - intros w Hw. cbn [strip_tags_from]. destruct (ascii_dec c ">") as [->|Hne].
    + destruct (String.eqb (String "<" w) "<").
      * apply tag_free_pair. exact IHn.
      * exact IHn.
    + change (String "<" w +:+ String c EmptyString)
        with (String "<" (w +:+ String c EmptyString)).
      apply IHs. rewrite contains_char_app, Hw, contains_char_cons.
      destruct (ascii_dec ">" c); [congruence | reflexivity].
Qed.

Lemma tag_free_slice (n : nat) (s : string) : tag_free s -> tag_free (slice_to n s).
Proof.
  intros H. revert n. induction H as [|c s Hc _ IH|s _ IH|w Hw]; intros n.
  - constructor.
  - cbn [slice_to]. destruct (is_continuation c); [|destruct n; [constructor|]];
      (apply tag_free_char; [exact Hc | apply IH]).
  - cbn [slice_to]. change (is_continuation "<") with false.
    change (is_continuation ">") with false. cbn iota.
    destruct n as [|[|n]].
    + constructor.
    + apply tag_free_open. reflexivity.
    + apply tag_free_pair, IH.
  - cbn [slice_to]. change (is_continuation "<") with false. cbn iota.
    destruct n; [constructor|].
    apply tag_free_open. now apply contains_char_slice.
Qed.

Lemma strip_tags_from_length (s : string) (pending : option string) :
  (String.length (strip_tags_from s pending)
   <= String.length s
      + match pending with Some buf => String.length buf | None => 0 end)%nat.
Proof.
  assert (Happ : forall a b, String.length (a +:+ b) = (String.length a + String.length b)%nat).
  { intros a b. induction a as [|x a IH]; [reflexivity|].
    rewrite PyStrFacts.app_cons. cbn [String.length]. now rewrite IH. }
  revert pending. induction s as [|c s IH]; intros pending; cbn [strip_tags_from String.length].
  - destruct pending; cbn; lia.
  - destruct pending as [buf|].
    + destruct (ascii_dec c ">").
      * pose proof (IH None) as H0. cbn beta iota in H0.
        destruct (String.eqb_spec buf "<") as [->|_].
        -- rewrite Happ. cbn [String.length] in *. lia.
        -- lia.
      * pose proof (IH (Some (buf +:+ String c EmptyString))) as H1. cbn beta iota in H1.
        rewrite Happ in H1. cbn [String.length] in H1. lia.
    + destruct (ascii_dec c "<").
      * pose proof (IH (Some "<")) as H1. cbn beta iota in H1.
        cbn [String.length] in H1. lia.
      * pose proof (IH None) as H0. cbn beta iota in H0. cbn [String.length]. lia.
Qed.

Lemma no_open_tag_free (s : string) : contains "<" s = false -> tag_free s.
Proof.
  induction s as [|c s IH]; intros H; [constructor|].
  rewrite contains_char_cons in H. apply orb_false_iff in H as [Hc Hs].
  apply tag_free_char; [|now apply IH].
  intros ->. destruct (ascii_dec "<" "<"); [discriminate Hc | congruence].
Qed.

Lemma slice_to_len (n : nat) (s : string) : (len (slice_to n s) <= n)%nat.
Proof.
  revert n. induction s as [|c s IH]; intros n; cbn [slice_to len]; [lia|].
  destruct (is_continuation c) eqn:E; [|destruct n; [cbn [len]; lia|]];
    cbn [len]; rewrite E; [apply IH|].
  specialize (IH n). lia.
Qed.

(** A string of at most [n] characters is its own slice; a longer one is
    cut to exactly [n]. *)
Lemma slice_to_short (n : nat) (s : string) : (len s <= n)%nat -> slice_to n s = s.
Proof.
  revert n. induction s as [|c s IH]; intros n H; [reflexivity|].
  cbn [slice_to len] in *. destruct (is_continuation c).
  - now rewrite IH.
  - destruct n; [lia|]. rewrite IH; [reflexivity | lia].
Qed.

End StripTagsFacts.

(** Slicing and [len] count characters: 300 two-byte letters are kept whole
    by [[:500]], and [[:2]] cuts between characters. *)
Example slice_to_counts_characters :
  slice_to 500 (PyStr.repeat "é" 300) = PyStr.repeat "é" 300
  /\ len (PyStr.repeat "é" 300) = 300%nat
  /\ String.length (PyStr.repeat "é" 300) = 600%nat
  /\ slice_to 2 "é€x" = "é€"
  /\ len "é€x" = 3%nat.
Proof. vm_compute. repeat split; reflexivity. Qed.

Example strip_tags_samples :
  map strip_tags
    ["<p>Campus <b>AI</b> rules</p>"; "a < b"; "a<>b"; "x <a href='u'>y"; "1 > 0 <br/>"]
  = ["Campus AI rules"; "a < b"; "a<>b"; "x y"; "1 > 0 "].
Proof. vm_compute. reflexivity. Qed.

(** X1. Removing tags twice removes nothing more; the result is never longer
    than the input; text without [<] is returned unchanged. *)
Theorem strip_tags_removes_every_tag (s : string) :
  strip_tags (strip_tags s) = strip_tags s
  /\ (String.length (strip_tags s) <= String.length s)%nat
  /\ (contains "<" s = false -> strip_tags s = s).
Proof.
  split; [|split].
  - apply tag_free_fixed. apply (proj1 (strip_tags_from_tag_free s)).
  - pose proof (strip_tags_from_length s None) as H. cbn in H. unfold strip_tags. lia.
  - intros H. now apply tag_free_fixed, no_open_tag_free.
Qed.

(** ** Feed conversion *)

Section FetchFacts.
Variable R : Runtime.
Variable SETTINGS : Settings.

Lemma convert_entries_step (source_name : string) (cutoff : Z) (entry : Entry)
    (rest : list Entry) (articles : list Article) :
  convert_entries source_name cutoff (entry :: rest) articles
  = if is_stale cutoff entry then convert_entries source_name cutoff rest articles
    else match article_of_entry source_name entry with
         | Some a => convert_entries source_name cutoff rest (articles ++ [a])
         | None => (articles, Raised AttributeError)
         end.
Proof.
  cbn [convert_entries]. unfold is_stale, article_of_entry, entry_pub_date, entry_summary_text.
  destruct (match match published_parsed entry with
                  | Some t => Some t
                  | None => updated_parsed entry
                  end with
            | Some t => (t <? cutoff)%Z
            | None => false
            end); [reflexivity|].
  destruct (entry_title entry); [|reflexivity].
  destruct (entry_link entry); reflexivity.
Qed.

Lemma convert_entries_skips_stale (source_name : string) (cutoff : Z)
    (entries : list Entry) (articles : list Article) :
  convert_entries source_name cutoff entries articles
  = convert_entries source_name cutoff
      (List.filter (fun e => negb (is_stale cutoff e)) entries) articles.
Proof.
  revert articles. induction entries as [|entry rest IH]; intros articles; [reflexivity|].
  cbn [List.filter]. destruct (is_stale cutoff entry) eqn:E; cbn [negb].
  - rewrite convert_entries_step, E. apply IH.
  - rewrite !convert_entries_step, E.
    destruct (article_of_entry source_name entry); [apply IH | reflexivity].
Qed.

Lemma convert_entries_well_formed (source_name : string) (cutoff : Z)
    (entries : list Entry) (articles : list Article) :
  (forall e, In e entries -> is_stale cutoff e = false ->
             entry_title e <> None /\ entry_link e <> None) ->
  convert_entries source_name cutoff entries articles
  = (articles ++ omap (article_of_entry source_name)
                   (List.filter (fun e => negb (is_stale cutoff e)) entries),
     Completed).
Proof.
  revert articles. induction entries as [|entry rest IH]; intros articles Hok.
  - cbn. now rewrite app_nil_r.
  - assert (Hrest : forall e, In e rest -> is_stale cutoff e = false ->
                              entry_title e <> None /\ entry_link e <> None).
    { intros e He. apply Hok. now right. }
    rewrite convert_entries_step. cbn [List.filter].
    destruct (is_stale cutoff entry) eqn:E; cbn [negb]; [now apply IH|].
    destruct (Hok entry (or_introl eq_refl) E) as [Ht Hl].
    unfold article_of_entry at 1.
    destruct (entry_title entry) as [t|] eqn:Et; [|congruence].
    destruct (entry_link entry) as [l|] eqn:El; [|congruence].
    rewrite (IH _ Hrest). cbn [omap list_omap]. unfold article_of_entry at 2.
    rewrite Et, El. now rewrite <- app_assoc.
Qed.

Lemma entry_summary_text_clean (entry : Entry) :
  (len (entry_summary_text entry) <= 500)%nat
  /\ strip_tags (entry_summary_text entry) = entry_summary_text entry.
Proof.
  unfold entry_summary_text.
  destruct (entry_summary entry) as [s|]; [|destruct (entry_description entry) as [s|]].
  - split; [apply slice_to_len|].
    apply tag_free_fixed, tag_free_slice, (proj1 (strip_tags_from_tag_free s)).
  - split; [apply slice_to_len|].
    apply tag_free_fixed, tag_free_slice, (proj1 (strip_tags_from_tag_free s)).
  - split; [cbn; lia | reflexivity].
Qed.

Lemma convert_entries_fresh (source_name : string) (cutoff : Z)
    (entries : list Entry) (articles : list Article) :
  Forall (fresh_article source_name cutoff) articles ->
  Forall (fresh_article source_name cutoff)
    (fst (convert_entries source_name cutoff entries articles)).
Proof.
  revert articles. induction entries as [|entry rest IH]; intros articles Hacc; [exact Hacc|].
  rewrite convert_entries_step. destruct (is_stale cutoff entry) eqn:E; [now apply IH|].
  destruct (article_of_entry source_name entry) as [a|] eqn:Ea; [|exact Hacc].
  apply IH. apply Forall_app. split; [exact Hacc|]. constructor; [|constructor].
  unfold article_of_entry in Ea.
  destruct (entry_title entry); [|discriminate].
  destruct (entry_link entry); [|discriminate].
  injection Ea as <-. unfold fresh_article, new_article. cbn.
  destruct (entry_summary_text_clean entry) as [Hlen Hclean].
  repeat split; try assumption.
  intros t Ht. unfold is_stale in E. rewrite Ht in E. lia.
Qed.

Lemma convert_entries_length (source_name : string) (cutoff : Z)
    (entries : list Entry) (articles : list Article) :
  (length (fst (convert_entries source_name cutoff entries articles))
   <= length articles + length entries)%nat.
Proof.
  revert articles. induction entries as [|entry rest IH]; intros articles.
  - cbn. lia.
  - rewrite convert_entries_step. cbn [length].
    destruct (is_stale cutoff entry); [specialize (IH articles); lia|].
    destruct (article_of_entry source_name entry).
    + specialize (IH (articles ++ [a])). rewrite length_app in IH. cbn in IH. lia.
    + cbn. lia.
Qed.

End FetchFacts.

(** X2. A source never contributes more articles than
    [max_articles_per_source] (default 10), nor more than its feed has
    entries. *)
Theorem fetch_feed_is_capped (R : Runtime) (SETTINGS : Settings)
    (source_name feed_url : string) (lookback : Z) :
  (length (fetch_feed R SETTINGS source_name feed_url lookback)
   <= default 10%nat (max_articles_per_source SETTINGS))%nat
  /\ forall entries,
       requests_get R feed_url = Feed entries ->
       (length (fetch_feed R SETTINGS source_name feed_url lookback) <= length entries)%nat.
Proof.
  unfold fetch_feed, try_fetch. split.
  - destruct (requests_get R feed_url) as [| |entries]; cbn [fst length]; try lia.
    etransitivity; [apply convert_entries_length|]. rewrite length_take. cbn [length]. lia.
  - intros entries ->. etransitivity; [apply convert_entries_length|].
    rewrite length_take. cbn [length]. lia.
Qed.

(** X3. Every article [fetch_feed] returns carries the source name it was
    asked for, the dataclass defaults (score 0, no keywords, "General"), a
    summary of at most 500 characters ([len] counts characters, not bytes)
    in which no tag is left, and a publication date that is absent or not
    before the lookback cutoff. *)
Theorem fetch_feed_articles_are_fresh (R : Runtime) (SETTINGS : Settings)
    (source_name feed_url : string) (lookback : Z) (a : Article) :
  In a (fetch_feed R SETTINGS source_name feed_url lookback) ->
  source a = source_name
  /\ relevance_score a = 0%Q
  /\ matched_keywords a = []
  /\ category a = "General"
  /\ (len (summary a) <= 500)%nat
  /\ strip_tags (summary a) = summary a
  /\ (forall t, published a = Some t -> (now R - 3600 * lookback <= t)%Z).
Proof.
  intros Hin.
  assert (Hall : Forall (fresh_article source_name (now R - 3600 * lookback))
                   (fetch_feed R SETTINGS source_name feed_url lookback)).
  { unfold fetch_feed, try_fetch.
    destruct (requests_get R feed_url); [constructor | constructor |].
    apply convert_entries_fresh. constructor. }
  rewrite List.Forall_forall in Hall. exact (Hall a Hin).
Qed.

Lemma fetch_feed_articles_are_fresh_witness :
  In (good_article "Good")
     (fetch_feed sample_runtime default_settings "Good" "https://good.example/rss" 24)
  /\ source (good_article "Good") = "Good"
  /\ (len (summary (good_article "Good")) <= 500)%nat.
Proof.
  assert (H : In (good_article "Good")
                (fetch_feed sample_runtime default_settings "Good"
                   "https://good.example/rss" 24))
    by (left; vm_compute; reflexivity).
  pose proof (fetch_feed_articles_are_fresh sample_runtime default_settings "Good"
                "https://good.example/rss" 24 (good_article "Good") H)
    as (Hs & _ & _ & _ & Hlen & _).
  split; [exact H | split; [exact Hs | exact Hlen]].
Defined.

(** X4. When every entry of the capped feed that is not stale has a title
    and a link, the [try] block completes and the source contributes, in
    feed order, exactly one article per entry that is not stale. *)
Theorem fetch_feed_converts_fresh_entries (R : Runtime) (SETTINGS : Settings)
    (source_name feed_url : string) (lookback : Z) (entries : list Entry) :
  requests_get R feed_url = Feed entries ->
  (forall e,
      In e (take (default 10%nat (max_articles_per_source SETTINGS)) entries) ->
      is_stale (now R - 3600 * lookback) e = false ->
      entry_title e <> None /\ entry_link e <> None) ->
  try_fetch R SETTINGS source_name feed_url lookback
  = (omap (article_of_entry source_name)
       (List.filter (fun e => negb (is_stale (now R - 3600 * lookback) e))
          (take (default 10%nat (max_articles_per_source SETTINGS)) entries)),
     Completed).
Proof.
  intros Hfeed Hok. unfold try_fetch. rewrite Hfeed.
  now rewrite convert_entries_well_formed.
Qed.

Lemma fetch_feed_converts_fresh_entries_witness :
  requests_get sample_runtime "https://good.example/rss" = Feed [good_entry]
  /\ try_fetch sample_runtime default_settings "Good" "https://good.example/rss" 24
     = ([good_article "Good"], Completed).
Proof.
  assert (Hfeed : requests_get sample_runtime "https://good.example/rss" = Feed [good_entry])
    by reflexivity.
  split; [exact Hfeed|].
  refine (eq_trans
            (fetch_feed_converts_fresh_entries sample_runtime default_settings "Good"
               "https://good.example/rss" 24 [good_entry] Hfeed _) _).
  - intros e [<-|[]] _. split; discriminate.
  - vm_compute. reflexivity.
Defined.

(** X5. Stale entries are dropped without being looked at further: a stale
    entry that lacks a title raises nothing.  The cap is applied before the
    lookback filter, so when the first [max_articles_per_source] entries of
    a feed are all stale the source contributes nothing, whatever follows. *)
Theorem stale_entries_are_skipped (R : Runtime) (SETTINGS : Settings)
    (source_name feed_url : string) (lookback : Z) (entries : list Entry) :
  requests_get R feed_url = Feed entries ->
  try_fetch R SETTINGS source_name feed_url lookback
  = convert_entries source_name (now R - 3600 * lookback)
      (List.filter (fun e => negb (is_stale (now R - 3600 * lookback) e))
         (take (default 10%nat (max_articles_per_source SETTINGS)) entries)) []
  /\ (Forall (fun e => is_stale (now R - 3600 * lookback) e = true)
        (take (default 10%nat (max_articles_per_source SETTINGS)) entries) ->
      try_fetch R SETTINGS source_name feed_url lookback = ([], Completed)).
Proof.
  intros Hfeed. unfold try_fetch. rewrite Hfeed. split.
  - apply convert_entries_skips_stale.
  - intros Hstale. rewrite convert_entries_skips_stale.
    replace (List.filter _ _) with (@nil Entry); [reflexivity|].
    induction Hstale as [|e l He _ IH]; [reflexivity|].
    cbn [List.filter]. rewrite He. exact IH.
Qed.

Lemma stale_entries_are_skipped_witness :
  requests_get
    (mkRuntime (fun _ => Feed [stale_untitled_entry; good_entry]) 1000000 ∅ sample_strftime)
    "u"
  = Feed [stale_untitled_entry; good_entry]
  /\ try_fetch
       (mkRuntime (fun _ => Feed [stale_untitled_entry; good_entry]) 1000000 ∅ sample_strftime)
       (mkSettings None (Some 1%nat) None None) "S" "u" 24
     = ([], Completed).
Proof.
  split; [reflexivity|].
  apply (proj2 (stale_entries_are_skipped
                  (mkRuntime (fun _ => Feed [stale_untitled_entry; good_entry]) 1000000 ∅
                     sample_strftime)
                  (mkSettings None (Some 1%nat) None None) "S" "u" 24
                  [stale_untitled_entry; good_entry] eq_refl)).
  repeat constructor.
Defined.

(** ** Scorer and categorizer *)

Section CategoryFacts.

Lemma dict_set_Forall {V} (P : string * V -> Prop) (d : list (string * V))
    (k : string) (v : V) :
  Forall P d -> P (k, v) -> Forall P (dict_set d k v).
Proof.
  intros Hd Hkv. induction Hd as [|[k' v'] d Hx Hd IH]; cbn [dict_set].
  - constructor; [exact Hkv | constructor].
  - destruct (String.eqb_spec k' k) as [->|_]; constructor; assumption.
Qed.

(** Every entry of [category_scores] is a configured label with the count
    of one of its configured fragment lists. *)
Lemma category_scores_entries (CATEGORIES : list (string * list string))
    (keywords : list string) :
  Forall (fun x => exists entry, In entry CATEGORIES /\ fst x = fst entry
                                 /\ snd x = category_score (snd entry) keywords)
    (category_scores CATEGORIES keywords).
Proof.
  unfold category_scores.
  assert (H : forall cats acc,
             (forall entry, In entry cats -> In entry CATEGORIES) ->
             Forall (fun x => exists entry, In entry CATEGORIES /\ fst x = fst entry
                                            /\ snd x = category_score (snd entry) keywords) acc ->
             Forall (fun x => exists entry, In entry CATEGORIES /\ fst x = fst entry
                                            /\ snd x = category_score (snd entry) keywords)
               (fold_left
                  (fun scores entry =>
                     dict_set scores (fst entry) (category_score (snd entry) keywords))
                  cats acc)).
  { induction cats as [|e cats IH]; intros acc Hsub Hacc; [exact Hacc|].
    cbn [fold_left]. apply IH.
    - intros entry Hin. apply Hsub. now right.
    - apply dict_set_Forall; [exact Hacc|]. exists e. split; [|split; reflexivity].
      apply Hsub. now left. }
  apply H; [auto | constructor].
Qed.

Lemma max_by_value_In (best : string * nat) (rest : list (string * nat)) :
  In (max_by_value best rest) (best :: rest).
Proof.
  revert best. induction rest as [|x r IH]; intros best; cbn [max_by_value].
  - now left.
  - destruct (snd best <? snd x)%nat.
    + right. apply IH.
    + destruct (IH best) as [H|H]; [left; exact H | right; right; exact H].
Qed.





Lemma categorize_best_entry (CATEGORIES : list (string * list string))
    (keywords : list string) (first : string * nat) (rest : list (string * nat)) :
  category_scores CATEGORIES keywords = first :: rest ->
  exists entry, In entry CATEGORIES
                /\ fst (max_by_value first rest) = fst entry
                /\ snd (max_by_value first rest) = category_score (snd entry) keywords.
Proof.
  intros E. pose proof (category_scores_entries CATEGORIES keywords) as Hall.
  rewrite E, List.Forall_forall in Hall. apply Hall, max_by_value_In.
Qed.

Lemma categorize_no_keywords (CATEGORIES : list (string * list string)) :
  categorize CATEGORIES [] = "General".
Proof.
  unfold categorize. destruct (category_scores CATEGORIES []) as [|first rest] eqn:E;
    [reflexivity|].
  destruct (categorize_best_entry _ _ _ _ E) as (entry & _ & _ & ->). reflexivity.
Qed.


End CategoryFacts.

Section ScoreFacts.
Variable RELEVANCE_KEYWORDS : list (string * Q).



End ScoreFacts.

(** X6. [categorize] answers "General" or a label of the category
    configuration, never anything else; with no keywords it answers
    "General" whatever the configuration. *)
Theorem categorize_answers_a_configured_label
    (CATEGORIES : list (string * list string)) (keywords : list string) :
  (categorize CATEGORIES keywords = "General"
   \/ In (categorize CATEGORIES keywords) (map fst CATEGORIES))
  /\ categorize CATEGORIES [] = "General".
Proof.
  split; [|apply categorize_no_keywords].
  unfold categorize. destruct (category_scores CATEGORIES keywords) as [|first rest] eqn:E;
    [now left|].
  destruct (0 <? snd (max_by_value first rest))%nat; [|now left].
  right. destruct (categorize_best_entry _ _ _ _ E) as (entry & Hin & -> & _).
  now apply in_map.
Qed.







(** ** Selection *)

Section SelectionFacts.

Lemma StronglySorted_app_cross {A} (P : A -> A -> Prop) (l1 l2 : list A) :
  StronglySorted P (l1 ++ l2) -> forall a b, In a l1 -> In b l2 -> P a b.
Proof.
  induction l1 as [|x l1 IH]; intros Hs a b Ha Hb; [destruct Ha|].
  cbn [app] in Hs. apply StronglySorted_inv in Hs as [Hs Hx].
  destruct Ha as [<-|Ha].
  - rewrite List.Forall_forall in Hx. apply Hx, in_or_app. now right.
  - now apply IH.
Qed.

Lemma no_response_no_articles (R : Runtime) (SETTINGS : Settings)
    (sources : list (string * string)) (lookback : Z) :
  (forall src, In src sources -> responds R src = false) ->
  flat_map (fun src => fetch_feed R SETTINGS (fst src) (snd src) lookback) sources = [].
Proof.
  induction sources as [|[name url] sources IH]; intros H; [reflexivity|].
  cbn [flat_map fst snd].
  rewrite (failed_request_empty R SETTINGS name url lookback (H _ (or_introl eq_refl))).
  apply IH. intros src Hin. apply H. now right.
Qed.

Lemma fetch_all_sources_without_responses (R : Runtime) (SETTINGS : Settings)
    (RELEVANCE_KEYWORDS : list (string * Q)) (CATEGORIES : list (string * list string))
    (DAILY_SOURCES WEEKLY_SOURCES : list (string * string)) (include_weekly : bool) :
  (forall src, In src DAILY_SOURCES -> responds R src = false) ->
  (include_weekly = true -> forall src, In src WEEKLY_SOURCES -> responds R src = false) ->
  fetch_all_sources R SETTINGS RELEVANCE_KEYWORDS CATEGORIES
    DAILY_SOURCES WEEKLY_SOURCES include_weekly
  = match min_score R SETTINGS with
    | Ok _ => Ok []
    | Raise e => Raise e
    end.
Proof.
  intros Hd Hw. unfold fetch_all_sources.
  rewrite collect_articles_flat_map, (no_response_no_articles _ _ _ _ Hd).
  assert (E : (if include_weekly
               then flat_map (fun src => fetch_feed R SETTINGS (fst src) (snd src) 168)
                      WEEKLY_SOURCES
               else []) = []).
  { destruct include_weekly; [|reflexivity]. apply no_response_no_articles. now apply Hw. }
  rewrite E. cbn [app map].
  destruct (min_score R SETTINGS); [|reflexivity].
  cbn. now rewrite take_nil.
Qed.

End SelectionFacts.

(** X11. What [fetch_all_sources] returns and what it leaves out together are
    the articles that reach the minimum; every returned article comes from
    the scored pool and reaches the minimum; no omitted article scores
    higher than a returned one; and nothing is omitted when at most
    [max_articles_total] articles qualify. *)
Theorem selection_keeps_the_best
    (R : Runtime) (SETTINGS : Settings)
    (RELEVANCE_KEYWORDS : list (string * Q)) (CATEGORIES : list (string * list string))
    (DAILY_SOURCES WEEKLY_SOURCES : list (string * string)) (include_weekly : bool)
    (minimum : Z) :
  min_score R SETTINGS = Ok minimum ->
  let scored :=
    map (score_relevance RELEVANCE_KEYWORDS CATEGORIES)
      (collect_articles R SETTINGS DAILY_SOURCES WEEKLY_SOURCES include_weekly) in
  exists returned omitted,
    fetch_all_sources R SETTINGS RELEVANCE_KEYWORDS CATEGORIES
      DAILY_SOURCES WEEKLY_SOURCES include_weekly = Ok returned
    /\ Permutation (returned ++ omitted) (relevant_at minimum scored)
    /\ (forall a, In a returned ->
                  In a scored /\ (inject_Z minimum <= relevance_score a)%Q)
    /\ (forall a b, In a returned -> In b omitted ->
                    (relevance_score b <= relevance_score a)%Q)
    /\ ((length (relevant_at minimum scored)
         <= default 25%nat (max_articles_total SETTINGS))%nat -> omitted = []).
Proof.
  intros Hmin scored.
  set (ranked := sort_desc relevance_score (relevant_at minimum scored)).
  set (k := default 25%nat (max_articles_total SETTINGS)).
  assert (Hperm : Permutation ranked (relevant_at minimum scored)) by apply sort_desc_perm.
  exists (take k ranked), (drop k ranked). split; [|split; [|split; [|split]]].
  - unfold fetch_all_sources. rewrite Hmin. reflexivity.
  - now rewrite take_drop.
  - intros a Ha.
    assert (Hin : In a (relevant_at minimum scored)).
    { apply (Permutation_in _ Hperm). rewrite <- (take_drop k ranked).
      apply in_or_app. now left. }
    unfold relevant_at in Hin. apply filter_In in Hin as [Hin Hle].
    split; [exact Hin | now apply Qle_bool_iff].
  - intros a b Ha Hb.
    pose proof (sort_desc_sorted relevance_score (relevant_at minimum scored)) as Hs.
    fold ranked in Hs. rewrite <- (take_drop k ranked) in Hs.
    exact (StronglySorted_app_cross _ _ _ Hs a b Ha Hb).
  - intros Hlen. apply drop_ge. rewrite (Permutation_length Hperm). exact Hlen.
Qed.

Lemma selection_keeps_the_best_witness :
  min_score sample_runtime default_settings = Ok 5%Z
  /\ exists returned omitted,
       fetch_all_sources sample_runtime default_settings five_point_keywords []
         sample_sources [] false = Ok returned
       /\ Permutation (returned ++ omitted)
            (relevant_at 5
               (map (score_relevance five_point_keywords [])
                  (collect_articles sample_runtime default_settings sample_sources [] false)))
       /\ (forall a b, In a returned -> In b omitted ->
                       (relevance_score b <= relevance_score a)%Q).
Proof.
  assert (H : min_score sample_runtime default_settings = Ok 5%Z) by reflexivity.
  split; [exact H|].
  destruct (selection_keeps_the_best sample_runtime default_settings five_point_keywords []
              sample_sources [] false 5%Z H)
    as (returned & omitted & H1 & H2 & _ & H4 & _).
  exists returned, omitted. split; [exact H1 | split; [exact H2 | exact H4]].
Defined.

(** X12. When no configured source answers (or none is configured), the run
    goes on with an empty pool: [fetch_all_sources] returns the empty list,
    or raises if the minimum score cannot be converted. *)
Theorem no_responding_source_gives_empty_list
    (R : Runtime) (SETTINGS : Settings)
    (RELEVANCE_KEYWORDS : list (string * Q)) (CATEGORIES : list (string * list string))
    (DAILY_SOURCES WEEKLY_SOURCES : list (string * string)) (include_weekly : bool) :
  (forall src, In src (DAILY_SOURCES ++ WEEKLY_SOURCES) -> responds R src = false) ->
  fetch_all_sources R SETTINGS RELEVANCE_KEYWORDS CATEGORIES
    DAILY_SOURCES WEEKLY_SOURCES include_weekly
  = match min_score R SETTINGS with
    | Ok _ => Ok []
    | Raise e => Raise e
    end.
Proof.
  intros H. apply fetch_all_sources_without_responses.
  - intros src Hin. apply H, in_or_app. now left.
  - intros _ src Hin. apply H, in_or_app. now right.
Qed.

Lemma no_responding_source_gives_empty_list_witness :
  (forall src, In src ([("Down", "https://down.example/rss")] ++ []) ->
               responds sample_runtime src = false)
  /\ fetch_all_sources sample_runtime default_settings five_point_keywords []
       [("Down", "https://down.example/rss")] [] false = Ok [].
Proof.
  assert (H : forall src, In src ([("Down", "https://down.example/rss")] ++ []) ->
                          responds sample_runtime src = false).
  { intros src [<-|[]]. vm_compute. reflexivity. }
  split; [exact H|].
  exact (no_responding_source_gives_empty_list sample_runtime default_settings
           five_point_keywords [] [("Down", "https://down.example/rss")] [] false H).
Defined.

(** ** Displayed score *)


Example displayed_score_samples :
  map PyNum.format_0f [15 # 1; 25 # 2; 27 # 2; 39 # 2; 0 # 1; -3 # 2]
  = ["15"; "12"; "14"; "20"; "0"; "-2"].
Proof. vm_compute. reflexivity. Qed.

(** ** Digests *)

Section DigestFacts.
Variable R : Runtime.

Lemma generate_html_digest_groups (articles : list Article) :
  generate_html_digest R articles
  = (html_head R articles
     +:+ match articles with
         | [] => html_no_articles
         | _ :: _ => concat_str (map (html_group R) (groups_in category_order articles))
         end)
    +:+ html_foot.
Proof.
  unfold generate_html_digest. destruct articles as [|a l]; [reflexivity|].
  now rewrite html_sections_fold.
Qed.

Lemma generate_text_digest_groups (articles : list Article) :
  generate_text_digest R articles
  = join nl ((text_head R articles
              ++ flat_map (text_group R) (groups_in category_order articles))
             ++ [nl +:+ repeat "=" 60]).
Proof. unfold generate_text_digest. now rewrite text_sections_fold. Qed.

Lemma groups_in_unlisted (order : list string) (articles : list Article) :
  (forall a, In a articles -> ~ In (category a) order) ->
  groups_in order articles = [].
Proof.
  intros H. induction order as [|c order IH]; [reflexivity|].
  rewrite groups_in_cons.
  assert (E : List.filter (in_category c) articles = []).
  { destruct (List.filter (in_category c) articles) as [|a g] eqn:E; [reflexivity|].
    assert (Ha : In a (List.filter (in_category c) articles)) by (rewrite E; now left).
    apply filter_In in Ha as [Hin Hc]. apply String.eqb_eq in Hc.
    exfalso. apply (H a Hin). left. now rewrite Hc. }
  rewrite E. apply IH. intros a Hin Hc. apply (H a Hin). now right.
Qed.

Lemma filter_in_category_map (f : Article -> Article) (c : string) (l : list Article) :
  (forall a, category (f a) = category a) ->
  List.filter (in_category c) (map f l) = map f (List.filter (in_category c) l).
Proof.
  intros Hf. induction l as [|a l IH]; [reflexivity|].
  cbn [map List.filter].
  assert (E : in_category c (f a) = in_category c a) by (unfold in_category; now rewrite Hf).
  rewrite E. destruct (in_category c a); cbn [map]; now rewrite IH.
Qed.

Lemma groups_in_map (f : Article -> Article) (order : list string) (l : list Article) :
  (forall a, category (f a) = category a) ->
  groups_in order (map f l)
  = map (fun g => (fst g, map f (snd g))) (groups_in order l).
Proof.
  intros Hf. induction order as [|c order IH]; [reflexivity|].
  rewrite !groups_in_cons, filter_in_category_map by exact Hf.
  destruct (List.filter (in_category c) l); cbn [map]; now rewrite IH.
Qed.

Lemma text_groups_map (f : Article -> Article) (gs : list (string * list Article)) :
  (forall a, text_article R (f a) = text_article R a) ->
  flat_map (text_group R) (map (fun g => (fst g, map f (snd g))) gs)
  = flat_map (text_group R) gs.
Proof.
  intros Hf. induction gs as [|g gs IH]; [reflexivity|].
  cbn [map flat_map]. rewrite IH. f_equal. unfold text_group. cbn [fst snd]. f_equal.
  induction (snd g) as [|a l IHl]; [reflexivity|].
  cbn [map flat_map]. now rewrite Hf, IHl.
Qed.

Lemma html_groups_map (f : Article -> Article) (gs : list (string * list Article)) :
  (forall a, html_article R (f a) = html_article R a) ->
  map (html_group R) (map (fun g => (fst g, map f (snd g))) gs)
  = map (html_group R) gs.
Proof.
  intros Hf. induction gs as [|g gs IH]; [reflexivity|].
  cbn [map]. rewrite IH. f_equal. unfold html_group. cbn [fst snd]. f_equal.
  rewrite map_map. f_equal. apply map_ext. exact Hf.
Qed.

Lemma html_empty_has_placeholder :
  contains "No high-relevance articles found today." (generate_html_digest R []) = true.
Proof.
  rewrite generate_html_digest_groups.
  apply PyStrFacts.contains_app_l, PyStrFacts.contains_app_r.
  vm_compute. reflexivity.
Qed.

End DigestFacts.

(** X14. The grouping dictionary files every article under its own category;
    it holds no empty group, and a category is absent from it exactly when
    no article has it. *)
Theorem group_by_category_files_every_article (articles : list Article) :
  (forall a, In a articles ->
             exists g, group_by_category articles !! category a = Some g /\ In a g)
  /\ (forall c g, group_by_category articles !! c = Some g ->
                  g <> [] /\ g = List.filter (in_category c) articles)
  /\ (forall c, group_by_category articles !! c = None <->
                forall a, In a articles -> category a <> c).
Proof.
  split; [|split].
  - intros a Hin. rewrite group_by_category_lookup.
    assert (Ha : In a (List.filter (in_category (category a)) articles)).
    { apply filter_In. split; [exact Hin | apply String.eqb_refl]. }
    destruct (List.filter (in_category (category a)) articles) as [|x g];
      [destruct Ha | eauto].
  - intros c g. rewrite group_by_category_lookup.
    destruct (List.filter (in_category c) articles); [discriminate|].
    intros [= <-]. split; [discriminate | reflexivity].
  - intros c. rewrite group_by_category_lookup. split.
    + destruct (List.filter (in_category c) articles) as [|x g] eqn:E; [|discriminate].
      intros _ a Hin Hc.
      assert (Ha : In a (List.filter (in_category c) articles)).
      { apply filter_In. split; [exact Hin | now apply String.eqb_eq]. }
      rewrite E in Ha. destruct Ha.
    + intros H. destruct (List.filter (in_category c) articles) as [|x g] eqn:E;
        [reflexivity|].
      assert (Hx : In x (List.filter (in_category c) articles)) by (rewrite E; now left).
      apply filter_In in Hx as [Hin Hc]. apply String.eqb_eq in Hc.
      exfalso. exact (H x Hin Hc).
Qed.

(** X15. When articles are given but none has a category of the display
    order, both digests have an empty body: the head (which still counts
    the articles) is followed directly by the foot, without the "no
    articles" block of the empty case. *)
Theorem unlisted_categories_leave_digest_blank (R : Runtime) (articles : list Article) :
  articles <> [] ->
  (forall a, In a articles -> ~ In (category a) category_order) ->
  generate_html_digest R articles = html_head R articles +:+ html_foot
  /\ generate_text_digest R articles
     = join nl (text_head R articles ++ [nl +:+ repeat "=" 60]).
Proof.
  intros Hne Hunlisted. split.
  - rewrite generate_html_digest_groups. destruct articles as [|a l]; [congruence|].
    rewrite (groups_in_unlisted _ _ Hunlisted). cbn [map concat_str fold_right].
    now rewrite PyStrFacts.app_nil_r.
  - rewrite generate_text_digest_groups, (groups_in_unlisted _ _ Hunlisted).
    cbn [flat_map]. now rewrite app_nil_r.
Qed.

Lemma unlisted_categories_leave_digest_blank_witness :
  [unlisted_article] <> []
  /\ (forall a, In a [unlisted_article] -> ~ In (category a) category_order)
  /\ generate_html_digest sample_runtime [unlisted_article]
     = html_head sample_runtime [unlisted_article] +:+ html_foot.
Proof.
  assert (H1 : [unlisted_article] <> []) by discriminate.
  assert (H2 : forall a, In a [unlisted_article] -> ~ In (category a) category_order).
  { intros a [<-|[]] Hin. cbn in Hin.
    repeat (destruct Hin as [Hin|Hin]; [discriminate Hin|]). exact Hin. }
  split; [exact H1 | split; [exact H2|]].
  exact (proj1 (unlisted_categories_leave_digest_blank sample_runtime [unlisted_article]
                  H1 H2)).
Defined.

(** X16. The text digest shows, of an article, only its title, source,
    publication date, score, link and category: changing anything else of
    the articles (summaries, matched keywords) leaves it unchanged. *)
Theorem text_digest_ignores_summary_and_keywords
    (R : Runtime) (f : Article -> Article) (articles : list Article) :
  (forall a, title (f a) = title a /\ link (f a) = link a /\ source (f a) = source a
             /\ published (f a) = published a
             /\ relevance_score (f a) = relevance_score a
             /\ category (f a) = category a) ->
  generate_text_digest R (map f articles) = generate_text_digest R articles.
Proof.
  intros Hf. rewrite !generate_text_digest_groups.
  rewrite groups_in_map by (intros a; apply Hf).
  rewrite text_groups_map.
  - unfold text_head. now rewrite length_map.
  - intros a. destruct (Hf a) as (Ht & Hl & Hs & Hp & Hr & _).
    unfold text_article. now rewrite Ht, Hl, Hs, Hp, Hr.
Qed.

Lemma text_digest_ignores_summary_and_keywords_witness :
  (forall a, title (without_details a) = title a /\ link (without_details a) = link a
             /\ source (without_details a) = source a
             /\ published (without_details a) = published a
             /\ relevance_score (without_details a) = relevance_score a
             /\ category (without_details a) = category a)
  /\ generate_text_digest sample_runtime (map without_details [tech_article; general_article])
     = generate_text_digest sample_runtime [tech_article; general_article].
Proof.
  assert (H : forall a, title (without_details a) = title a /\ link (without_details a) = link a
                        /\ source (without_details a) = source a
                        /\ published (without_details a) = published a
                        /\ relevance_score (without_details a) = relevance_score a
                        /\ category (without_details a) = category a)
    by (intros a; repeat split).
  split; [exact H|].
  exact (text_digest_ignores_summary_and_keywords sample_runtime without_details
           [tech_article; general_article] H).
Defined.

(** X17. The HTML digest shows at most the first five matched keywords of an
    article: dropping the later ones leaves it unchanged. *)
Theorem html_digest_shows_five_keywords (R : Runtime) (articles : list Article) :
  generate_html_digest R (map first_five_keywords articles)
  = generate_html_digest R articles.
Proof.
  rewrite !generate_html_digest_groups.
  rewrite groups_in_map by reflexivity.
  rewrite html_groups_map.
  - unfold html_head. rewrite length_map. destruct articles; reflexivity.
  - intros a. unfold html_article, first_five_keywords.
    cbn [published summary matched_keywords link title source relevance_score].
    now rewrite take_take.
Qed.

(** ** Delivery and the scheduled run *)

Section DeliveryFacts.
Variable R : Runtime.
Variable smtp : Email -> bool.

Lemma truthy_set (s : string) : s <> EmptyString -> truthy (Some s) = true.
Proof. destruct s; [congruence | reflexivity]. Qed.

Lemma send_email_with_credentials (html text sender password recipient : string) (port : Z) :
  credentials R sender password recipient ->
  PyNum.int (VStr (default "587" (environ R !! "SMTP_PORT"))) = Ok port ->
  send_email R smtp html text
  = Ok (smtp {| mail_server := default "smtp.gmail.com" (environ R !! "SMTP_SERVER");
                mail_port := port;
                mail_user := sender;
                mail_password := password;
                mail_subject :=
                  "🎯 Enterprise AI Briefing - " +:+ strftime R (now R) "%b %d, %Y";
                mail_from := sender;
                mail_to := recipient;
                mail_parts := [("plain", text); ("html", html)] |},
        [{| mail_server := default "smtp.gmail.com" (environ R !! "SMTP_SERVER");
            mail_port := port;
            mail_user := sender;
            mail_password := password;
            mail_subject :=
              "🎯 Enterprise AI Briefing - " +:+ strftime R (now R) "%b %d, %Y";
            mail_from := sender;
            mail_to := recipient;
            mail_parts := [("plain", text); ("html", html)] |}]).
Proof.
  intros (Hs & Hp & Hr & Hs' & Hp' & Hr') Hport.
  unfold send_email. rewrite Hport, Hs, Hp, Hr. cbn [forallb].
  rewrite !truthy_set by assumption. reflexivity.
Qed.

Lemma send_email_without_credentials (html text : string) :
  forallb truthy [environ R !! "SENDER_EMAIL"; environ R !! "SENDER_PASSWORD";
                  environ R !! "RECIPIENT_EMAIL"] = false ->
  send_email R smtp html text
  = match PyNum.int (VStr (default "587" (environ R !! "SMTP_PORT"))) with
    | Raise e => Raise e
    | Ok _ => Ok (false, [])
    end.
Proof.
  intros H. unfold send_email.
  destruct (PyNum.int (VStr (default "587" (environ R !! "SMTP_PORT")))); [|reflexivity].
  now rewrite H.
Qed.


Lemma send_email_raises (html text : string) (e : exn) :
  send_email R smtp html text = Raise e
  <-> PyNum.int (VStr (default "587" (environ R !! "SMTP_PORT"))) = Raise e.
Proof.
  unfold send_email.
  destruct (PyNum.int (VStr (default "587" (environ R !! "SMTP_PORT")))).
  - destruct (negb _); split; discriminate.
  - split; intros [= <-]; reflexivity.
Qed.

End DeliveryFacts.

(** X18. Without the three credentials no SMTP session is opened: when
    [SENDER_EMAIL], [SENDER_PASSWORD] or [RECIPIENT_EMAIL] is unset or
    empty, [send_email] returns [False] and hands nothing over, whatever the
    SMTP server would have done. *)
Theorem send_email_needs_credentials
    (R : Runtime) (smtp : Email -> bool) (html text key : string) (port : Z) :
  In key ["SENDER_EMAIL"; "SENDER_PASSWORD"; "RECIPIENT_EMAIL"] ->
  environ R !! key = None \/ environ R !! key = Some EmptyString ->
  PyNum.int (VStr (default "587" (environ R !! "SMTP_PORT"))) = Ok port ->
  send_email R smtp html text = Ok (false, []).
Proof.
  intros Hkey Hunset Hport.
  rewrite send_email_without_credentials, Hport; [reflexivity|].
  assert (Hfalse : truthy (environ R !! key) = false)
    by (destruct Hunset as [-> | ->]; reflexivity).
  cbn [forallb].
  destruct Hkey as [<-|[<-|[<-|[]]]]; rewrite Hfalse;
    rewrite ?andb_false_r, ?andb_false_l; reflexivity.
Qed.

Lemma send_email_needs_credentials_witness :
  In "SENDER_PASSWORD" ["SENDER_EMAIL"; "SENDER_PASSWORD"; "RECIPIENT_EMAIL"]
  /\ environ sample_runtime !! "SENDER_PASSWORD" = None
  /\ PyNum.int (VStr (default "587" (environ sample_runtime !! "SMTP_PORT"))) = Ok 587%Z
  /\ send_email sample_runtime (fun _ => true) "<html>" "text" = Ok (false, []).
Proof.
  assert (H1 : In "SENDER_PASSWORD" ["SENDER_EMAIL"; "SENDER_PASSWORD"; "RECIPIENT_EMAIL"])
    by (right; left; reflexivity).
  assert (H2 : environ sample_runtime !! "SENDER_PASSWORD" = None) by (vm_compute; reflexivity).
  assert (H3 : PyNum.int (VStr (default "587" (environ sample_runtime !! "SMTP_PORT")))
               = Ok 587%Z) by (vm_compute; reflexivity).
  split; [exact H1 | split; [exact H2 | split; [exact H3|]]].
  exact (send_email_needs_credentials sample_runtime (fun _ => true) "<html>" "text"
           "SENDER_PASSWORD" 587%Z H1 (or_introl H2) H3).
Defined.

(** X19. The port is converted before the credentials are looked at: a
    [SMTP_PORT] that is not an integer string makes [send_email] raise
    [ValueError], configured or not; and only that conversion makes it
    raise. *)
Theorem send_email_converts_port_first
    (R : Runtime) (smtp : Email -> bool) (html text : string) :
  (forall s, environ R !! "SMTP_PORT" = Some s -> PyNum.int_of_str s = None ->
             send_email R smtp html text = Raise ValueError)
  /\ (forall e, send_email R smtp html text = Raise e ->
                e = ValueError
                /\ exists s, environ R !! "SMTP_PORT" = Some s /\ PyNum.int_of_str s = None).
Proof.
  split.
  - intros s Hs Hbad. apply send_email_raises. rewrite Hs. cbn [default PyNum.int].
    unfold default. cbn. now rewrite Hbad.
  - intros e He. apply send_email_raises in He.
    destruct (environ R !! "SMTP_PORT") as [s|] eqn:Es.
    + cbn in He. destruct (PyNum.int_of_str s) eqn:Ei; [discriminate|].
      injection He as <-. split; [reflexivity | eauto].
    + vm_compute in He. discriminate He.
Qed.

Lemma send_email_converts_port_first_witness :
  environ bad_port_runtime !! "SMTP_PORT" = Some "smtp"
  /\ PyNum.int_of_str "smtp" = None
  /\ send_email bad_port_runtime (fun _ => true) "<html>" "text" = Raise ValueError.
Proof.
  assert (H1 : environ bad_port_runtime !! "SMTP_PORT" = Some "smtp")
    by (vm_compute; reflexivity).
  assert (H2 : PyNum.int_of_str "smtp" = None) by (vm_compute; reflexivity).
  split; [exact H1 | split; [exact H2|]].
  exact (proj1 (send_email_converts_port_first bad_port_runtime (fun _ => true)
                  "<html>" "text") "smtp" H1 H2).
Defined.

(** X20. With the three credentials set and a valid port (587 when
    [SMTP_PORT] is unset), [send_email] opens one SMTP session, to
    [SMTP_SERVER] or [smtp.gmail.com], logged in as the sender, with one
    message from the sender to the recipient whose parts are the plain text
    and then the HTML; it returns whether that session ended without an
    exception. *)
Theorem send_email_hands_over_both_parts
    (R : Runtime) (smtp : Email -> bool) (html text sender password recipient : string)
    (port : Z) :
  credentials R sender password recipient ->
  PyNum.int (VStr (default "587" (environ R !! "SMTP_PORT"))) = Ok port ->
  exists msg,
    send_email R smtp html text = Ok (smtp msg, [msg])
    /\ mail_server msg = default "smtp.gmail.com" (environ R !! "SMTP_SERVER")
    /\ mail_port msg = port
    /\ (environ R !! "SMTP_PORT" = None -> port = 587%Z)
    /\ mail_user msg = sender /\ mail_password msg = password
    /\ mail_from msg = sender /\ mail_to msg = recipient
    /\ mail_parts msg = [("plain", text); ("html", html)].
Proof.
  intros Hcred Hport. eexists. split.
  - apply send_email_with_credentials; eassumption.
  - cbn. repeat split. intros Hnone. rewrite Hnone in Hport.
    vm_compute in Hport. now injection Hport as <-.
Qed.

Lemma send_email_hands_over_both_parts_witness :
  credentials mail_runtime "digest@example.edu" "app-password" "cio@example.edu"
  /\ exists msg,
       send_email mail_runtime (fun _ => false) "<html>" "text" = Ok (false, [msg])
       /\ mail_port msg = 587%Z
       /\ mail_to msg = "cio@example.edu"
       /\ mail_parts msg = [("plain", "text"); ("html", "<html>")].
Proof.
  assert (Hc : credentials mail_runtime "digest@example.edu" "app-password" "cio@example.edu").
  { unfold credentials. repeat split; try discriminate; vm_compute; reflexivity. }
  assert (Hp : PyNum.int (VStr (default "587" (environ mail_runtime !! "SMTP_PORT")))
               = Ok 587%Z) by (vm_compute; reflexivity).
  split; [exact Hc|].
  destruct (send_email_hands_over_both_parts mail_runtime (fun _ => false) "<html>" "text"
              "digest@example.edu" "app-password" "cio@example.edu" 587%Z Hc Hp)
    as (msg & Hsend & _ & Hport & _ & _ & _ & _ & Hto & Hparts).
  exists msg. split; [exact Hsend | split; [exact Hport | split; [exact Hto | exact Hparts]]].
Defined.


(** X22. When no daily source answers and the mail settings are complete,
    the run raises nothing and hands exactly one message to one SMTP
    session: it is addressed to the configured recipient, its parts are the
    digests of the empty list, and its HTML part carries the "no articles
    found" block.  Whether that message goes out is up to the session:
    [send_email] returns [True] exactly when the session ends without an
    exception. *)
Theorem empty_digest_is_handed_to_smtp
    (R : Runtime) (smtp : Email -> bool) (SETTINGS : Settings)
    (RELEVANCE_KEYWORDS : list (string * Q)) (CATEGORIES : list (string * list string))
    (DAILY_SOURCES WEEKLY_SOURCES : list (string * string)) (past_due : bool)
    (sender password recipient : string) (minimum port : Z) :
  (forall src, In src DAILY_SOURCES -> responds R src = false) ->
  min_score R SETTINGS = Ok minimum ->
  PyNum.int (VStr (default "587" (environ R !! "SMTP_PORT"))) = Ok port ->
  credentials R sender password recipient ->
  exists msg,
    AINewsDigest R smtp SETTINGS RELEVANCE_KEYWORDS CATEGORIES
      DAILY_SOURCES WEEKLY_SOURCES past_due = Ok [msg]
    /\ send_email R smtp (generate_html_digest R []) (generate_text_digest R [])
       = Ok (smtp msg, [msg])
    /\ mail_to msg = recipient
    /\ mail_parts msg
       = [("plain", generate_text_digest R []); ("html", generate_html_digest R [])]
    /\ contains "No high-relevance articles found today." (generate_html_digest R []) = true.
Proof.
  intros Hdown Hmin Hport Hcred. unfold AINewsDigest.
  rewrite fetch_all_sources_without_responses, Hmin by (exact Hdown || discriminate).
  rewrite (send_email_with_credentials R smtp _ _ _ _ _ _ Hcred Hport).
  eexists. split; [reflexivity|]. split; [reflexivity|]. cbn [mail_to mail_parts].
  split; [reflexivity | split; [reflexivity|]]. apply html_empty_has_placeholder.
Qed.

Lemma empty_digest_is_handed_to_smtp_witness :
  (forall src, In src [("Down", "https://down.example/rss")] -> responds mail_runtime src = false)
  /\ credentials mail_runtime "digest@example.edu" "app-password" "cio@example.edu"
  /\ exists msg,
       AINewsDigest mail_runtime (fun _ => false) default_settings five_point_keywords []
         [("Down", "https://down.example/rss")] sample_sources false = Ok [msg]
       /\ send_email mail_runtime (fun _ => false) (generate_html_digest mail_runtime [])
            (generate_text_digest mail_runtime []) = Ok (false, [msg])
       /\ mail_to msg = "cio@example.edu".
Proof.
  assert (Hd : forall src, In src [("Down", "https://down.example/rss")] ->
                           responds mail_runtime src = false).
  { intros src [<-|[]]. vm_compute. reflexivity. }
  assert (Hc : credentials mail_runtime "digest@example.edu" "app-password" "cio@example.edu").
  { unfold credentials. repeat split; try discriminate; vm_compute; reflexivity. }
  assert (Hm : min_score mail_runtime default_settings = Ok 5%Z) by (vm_compute; reflexivity).
  assert (Hp : PyNum.int (VStr (default "587" (environ mail_runtime !! "SMTP_PORT")))
               = Ok 587%Z) by (vm_compute; reflexivity).
  split; [exact Hd | split; [exact Hc|]].
  destruct (empty_digest_is_handed_to_smtp mail_runtime (fun _ => false) default_settings
              five_point_keywords [] [("Down", "https://down.example/rss")] sample_sources
              false "digest@example.edu" "app-password" "cio@example.edu" 5%Z 587%Z
              Hd Hm Hp Hc)
    as (msg & Hrun & Hsend & Hto & _).
  exists msg. split; [exact Hrun | split; [exact Hsend | exact Hto]].
Defined.
